(** * RevCopy admin panel: the authenticated API client

    A shallow embedding of [revcopy-admin-main/src/lib/api.ts]: the
    [TokenManager] (three string fields kept in [localStorage]) and the
    [ApiClient] request gateway with its refresh-on-401 protocol.

    The browser is modelled by an explicit [World] (local storage, the
    location bar, the console, the log of [fetch] calls, the number of
    clock readings taken so far); the outside of the browser is a pair
    of oracles, the clock and the network, over which every theorem is
    universally quantified.  JavaScript exceptions are an outcome of the
    computation, so that [try]/[catch]/[finally] are modelled as
    written.

    Around the client, the file also embeds its callers: the query and
    mutation functions and the pure helpers of
    [components/PromptsManagement.tsx], the submit handler of
    [pages/Login.tsx] and the loader of the customer dashboard's
    [pages/Campaigns.tsx], each over the state of its component. *)

From Stdlib Require Import ZArith Lia Ascii String List.
From stdpp Require Import base strings gmap pretty.

Local Open Scope string_scope.
Local Open Scope Z_scope.
Local Open Scope list_scope.

(** ** JavaScript values used by the client *)

(** Strings are sequences of code units; the model keeps the code units
    below 256, one [ascii] each. *)

(** [number]: the client only computes with millisecond timestamps and
    second counts, so a number is an integer or [NaN].  The arithmetic
    below is the IEEE one wherever the integers involved are below
    2^53 in absolute value. *)
Inductive number : Type :=
  | Finite (z : Z)
  | NaN.

Definition number_add (a b : number) : number :=
  match a, b with
  | Finite x, Finite y => Finite (x + y)
  | _, _ => NaN
  end.

Definition number_mul (a b : number) : number :=
  match a, b with
  | Finite x, Finite y => Finite (x * y)
  | _, _ => NaN
  end.

(** [a >= b]: any comparison with [NaN] is false. *)
Definition number_ge (a b : number) : bool :=
  match a, b with
  | Finite x, Finite y => (y <=? x)%Z
  | _, _ => false
  end.

(** [Number.prototype.toString()]: decimal digits, a leading minus for a
    negative integer. *)
Definition number_toString (a : number) : string :=
  match a with
  | Finite z => pretty z
  | NaN => "NaN"
  end.

(** Truthiness of a [string | null]: [null] and the empty string are the
    falsy ones. *)
Definition truthy (v : option string) : bool :=
  match v with
  | Some (String _ _) => true
  | _ => false
  end.

(** *** [parseInt(string)] with no radix argument *)

(** White space stripped by [parseInt]: TAB, LF, VT, FF, CR, SP, NBSP. *)
Definition is_white_space (c : ascii) : bool :=
  let n := N_of_ascii c in
  ((n =? 9) || (n =? 10) || (n =? 11) || (n =? 12) || (n =? 13)
   || (n =? 32) || (n =? 160))%N.

Fixpoint trimStart (s : string) : string :=
  match s with
  | String c s' => if is_white_space c then trimStart s' else s
  | EmptyString => EmptyString
  end.

(** Value of a digit in radix [R], letters of either case counting from
    ten. *)
Definition digit_value (c : ascii) : option Z :=
  let n := Z.of_N (N_of_ascii c) in
  if (48 <=? n) && (n <=? 57) then Some (n - 48)
  else if (97 <=? n) && (n <=? 122) then Some (n - 87)
  else if (65 <=? n) && (n <=? 90) then Some (n - 55)
  else None.

Definition radix_digit (R : Z) (c : ascii) : option Z :=
  match digit_value c with
  | Some d => if d <? R then Some d else None
  | None => None
  end.

(** Reads the longest prefix of radix-[R] digits; [acc] is [None] until
    a first digit has been read. *)
Fixpoint parse_digits (R : Z) (s : string) (acc : option Z) : option Z :=
  match s with
  | String c s' =>
      match radix_digit R c with
      | Some d => parse_digits R s' (Some (R * default 0 acc + d))
      | None => acc
      end
  | EmptyString => acc
  end.

Definition parseInt (input : string) : number :=
  let S0 := trimStart input in
  let '(sign, S1) :=
    match S0 with
    | String "-" rest => (-1, rest)
    | String "+" rest => (1, rest)
    | _ => (1, S0)
    end in
  let '(R, S2) :=
    match S1 with
    | String "0" (String "x" rest) => (16, rest)
    | String "0" (String "X" rest) => (16, rest)
    | _ => (10, S1)
    end in
  match parse_digits R S2 None with
  | Some m => Finite (sign * m)
  | None => NaN
  end.

(** *** [JSON.stringify] of a string *)

Definition double_quote : ascii := ascii_of_N 34.

Definition hex_digit (n : N) : ascii :=
  ascii_of_N (if (n <? 10)%N then 48 + n else 87 + n)%N.

Definition quote_char (c : ascii) : string :=
  let n := N_of_ascii c in
  if (n =? 34)%N then String "\" (String double_quote EmptyString)
  else if (n =? 92)%N then "\\"
  else if (n =? 8)%N then "\b"
  else if (n =? 12)%N then "\f"
  else if (n =? 10)%N then "\n"
  else if (n =? 13)%N then "\r"
  else if (n =? 9)%N then "\t"
  else if (n <? 32)%N then
    "\u00" +:+ String (hex_digit (n / 16))
                (String (hex_digit (n mod 16)) EmptyString)
  else String c EmptyString.

Fixpoint quote_chars (s : string) : string :=
  match s with
  | String c s' => quote_char c +:+ quote_chars s'
  | EmptyString => EmptyString
  end.

Definition JSON_stringify_string (s : string) : string :=
  String double_quote (quote_chars s +:+ String double_quote EmptyString).

(** *** [JSON.stringify] of a value *)

(** The values the client serialises: a request payload of type [any].
    An object is the list of its own properties in enumeration order. *)
#[warnings="-register-all"]
Inductive Json : Type :=
  | JNull
  | JBool (b : bool)
  | JNum (n : number)
  | JStr (s : string)
  | JArr (items : list Json)
  | JObj (fields : list (string * Json)).

(** [Array.prototype.join(",")] on strings. *)
Fixpoint join_comma (parts : list string) : string :=
  match parts with
  | [] => EmptyString
  | [part] => part
  | part :: rest => part +:+ "," +:+ join_comma rest
  end.

(** [JSON.stringify(value)] with no indentation; a number that is not
    finite is written [null]. *)
Fixpoint JSON_stringify (value : Json) : string :=
  match value with
  | JNull => "null"
  | JBool true => "true"
  | JBool false => "false"
  | JNum (Finite z) => number_toString (Finite z)
  | JNum NaN => "null"
  | JStr s => JSON_stringify_string s
  | JArr items => "[" +:+ join_comma (map JSON_stringify items) +:+ "]"
  | JObj fields =>
      "{" +:+ join_comma
                (map (λ field, JSON_stringify_string (fst field) +:+ ":"
                               +:+ JSON_stringify (snd field)) fields)
          +:+ "}"
  end.

(** ** Exceptions, the browser state and the effect monad *)

(** What a [catch (error)] clause can observe of a thrown value:
    whether it is an [Error] instance, and then its [message]. *)
Inductive Thrown : Type :=
  | ErrorObject (message : string)
  | OtherValue.

Inductive Outcome (A : Type) : Type :=
  | Return (a : A)
  | Throw (e : Thrown).
Arguments Return {A} a.
Arguments Throw {A} e.

(** The init object handed to [fetch]. *)
Record Request : Type := mkRequest {
  req_url : string;
  req_method : option string;
  req_headers : gmap string string;
  req_body : option string;
  req_timeout : option Z   (* [signal: AbortSignal.timeout(ms)] *)
}.

(** The [Response] a [fetch] promise resolves with, as far as the client
    reads it; [json] is the outcome of awaiting [response.json()]. *)
Record Response (T : Type) : Type := mkResponse {
  status : Z;
  statusText : string;
  json : Outcome T
}.
Arguments mkResponse {T} _ _ _.
Arguments status {T} _.
Arguments statusText {T} _.
Arguments json {T} _.

(** [response.ok]: the status is in the range 200-299. *)
Definition ok {T} (r : Response T) : bool :=
  (200 <=? status r) && (status r <=? 299).

Record World : Type := mkWorld {
  localStorage : gmap string string;
  location_href : string;                (* [window.location.href] *)
  console : list (string * Thrown);      (* lines of [console.error] *)
  fetched : list Request;                (* calls to [fetch], oldest first *)
  ticks : nat                            (* readings of [Date.now()] so far *)
}.

Definition M (A : Type) : Type := World → Outcome A * World.

Global Instance M_ret : MRet M := λ A a w, (Return a, w).

Global Instance M_bind : MBind M := λ A B f m w,
  match m w with
  | (Return a, w') => f a w'
  | (Throw e, w') => (Throw e, w')
  end.

Definition throw {A} (e : Thrown) : M A := λ w, (Throw e, w).

(** [try { body } catch (error) { handler error }] *)
Definition try_catch {A} (body : M A) (handler : Thrown → M A) : M A := λ w,
  match body w with
  | (Return a, w') => (Return a, w')
  | (Throw e, w') => handler e w'
  end.

(** [try { body } finally { cleanup }] *)
Definition try_finally {A} (body : M A) (cleanup : M unit) : M A := λ w,
  match body w with
  | (r, w') =>
      match cleanup w' with
      | (Return _, w'') => (r, w'')
      | (Throw e, w'') => (Throw e, w'')
      end
  end.

(** An awaited promise that settles with a known outcome. *)
Definition await {A} (o : Outcome A) : M A := λ w, (o, w).

Module Storage.
(** [localStorage.getItem], [setItem] and [removeItem].  The storage is
    taken to be available and unbounded: no call on it throws. *)
Definition getItem (key : string) : M (option string) := λ w,
  (Return (localStorage w !! key), w).

Definition setItem (key value : string) : M unit := λ w,
  (Return (),
   mkWorld (<[key := value]> (localStorage w)) (location_href w)
           (console w) (fetched w) (ticks w)).

Definition removeItem (key : string) : M unit := λ w,
  (Return (),
   mkWorld (delete key (localStorage w)) (location_href w)
           (console w) (fetched w) (ticks w)).
End Storage.

(** [window.location.href = url] *)
Definition set_location_href (url : string) : M unit := λ w,
  (Return (),
   mkWorld (localStorage w) url (console w) (fetched w) (ticks w)).

Definition console_error (line : string) (error : Thrown) : M unit := λ w,
  (Return (),
   mkWorld (localStorage w) (location_href w)
           (console w ++ [(line, error)]) (fetched w) (ticks w)).

(** The outside world.  [clock n] is what the [n]-th call of
    [Date.now()] returns.  A network answers a request, given the
    requests made before it, by resolving with a response or rejecting
    (a transport failure, or the abort raised when the time-out of the
    request elapses). *)
Definition Clock : Type := nat → Z.
Definition Network (T : Type) : Type :=
  list Request → Request → Outcome (Response T).

Definition Date_now (clock : Clock) : M Z := λ w,
  (Return (clock (ticks w)),
   mkWorld (localStorage w) (location_href w) (console w) (fetched w)
           (S (ticks w))).

Definition fetch {T} (net : Network T) (req : Request) : M (Response T) := λ w,
  (net (fetched w) req,
   mkWorld (localStorage w) (location_href w) (console w)
           (fetched w ++ [req]) (ticks w)).

(** ** The payloads *)

Record LoginCredentials : Type := mkLoginCredentials {
  email : string;
  password : string
}.

Record AuthResponse : Type := mkAuthResponse {
  access_token : string;
  refresh_token : string;
  token_type : string;
  expires_in : number
}.

Record ApiResponse (T : Type) : Type := mkApiResponse {
  success : bool;
  data : option T;
  message : option string
}.
Arguments mkApiResponse {T} _ _ _.
Arguments success {T} _.
Arguments data {T} _.
Arguments message {T} _.

(** A response body is of type [any] when the gateway reads its
    [detail] property.  [detail d] is the outcome of evaluating
    [data.detail] for the argument of [new Error(...)]: [Return None]
    when the property is missing or falsy, [Return (Some s)] when it is
    truthy and [s] is its conversion to a string, [Throw e] when the
    evaluation throws (the body is [null]). *)
Class Payload (T : Type) := detail : T → Outcome (option string).
Global Hint Mode Payload ! : typeclass_instances.

(** ** Configuration *)

Module API_CONFIG.
Definition BASE_URL : string := "http://localhost:8000".
Definition TIMEOUT : Z := 30000.
Definition RETRY_ATTEMPTS : Z := 3.
Definition RETRY_DELAY : Z := 1000.
End API_CONFIG.

(** ** Authentication token management *)

Module TokenManager.
Definition ACCESS_TOKEN_KEY : string := "admin_access_token".
Definition REFRESH_TOKEN_KEY : string := "admin_refresh_token".
Definition TOKEN_EXPIRY_KEY : string := "admin_token_expiry".

Section WithClock.
Variable clock : Clock.

Definition setTokens (authResponse : AuthResponse) : M unit :=
  now ← Date_now clock;
  let expiryTime :=
    number_add (Finite now)
               (number_mul (expires_in authResponse) (Finite 1000)) in
  Storage.setItem ACCESS_TOKEN_KEY (access_token authResponse);;
  Storage.setItem REFRESH_TOKEN_KEY (refresh_token authResponse);;
  Storage.setItem TOKEN_EXPIRY_KEY (number_toString expiryTime).

Definition getAccessToken : M (option string) :=
  Storage.getItem ACCESS_TOKEN_KEY.

Definition getRefreshToken : M (option string) :=
  Storage.getItem REFRESH_TOKEN_KEY.

Definition isTokenExpired : M bool :=
  expiryTime ← Storage.getItem TOKEN_EXPIRY_KEY;
  if negb (truthy expiryTime) then mret true
  else
    now ← Date_now clock;
    mret (number_ge (Finite now) (parseInt (default EmptyString expiryTime))).

Definition clearTokens : M unit :=
  Storage.removeItem ACCESS_TOKEN_KEY;;
  Storage.removeItem REFRESH_TOKEN_KEY;;
  Storage.removeItem TOKEN_EXPIRY_KEY.

(** [token !== null && !this.isTokenExpired()]: the clock is read
    only when a token is stored. *)
Definition isAuthenticated : M bool :=
  token ← getAccessToken;
  match token with
  | None => mret false
  | Some _ => expired ← isTokenExpired; mret (negb expired)
  end.
End WithClock.
End TokenManager.

(** ** The API client *)

(** The [options: RequestInit] of a call; [init_headers] is the record
    the caller passes for [headers], empty when it passes none. *)
Record RequestInit : Type := mkRequestInit {
  init_method : option string;
  init_headers : gmap string string;
  init_body : option string
}.

(** [options = {}], the default. *)
Definition no_options : RequestInit := mkRequestInit None ∅ None.

Module ApiClient.
Definition baseURL : string := API_CONFIG.BASE_URL.
Definition timeout : Z := API_CONFIG.TIMEOUT.

Definition refresh_url : string := baseURL +:+ "/api/v1/auth/refresh".

(** The request of the refresh protocol:
    [JSON.stringify({ refresh_token: refreshToken })] as its body, no
    time-out and no [Authorization] header. *)
Definition refresh_request (refreshToken : string) : Request :=
  mkRequest refresh_url (Some "POST")
            {[ "Content-Type" := "application/json" ]}
            (Some ("{" +:+ JSON_stringify_string "refresh_token" +:+ ":"
                   +:+ JSON_stringify_string refreshToken +:+ "}"))
            None.

Section WithEnvironment.
Variable clock : Clock.
(** The network as the refresh protocol sees it: the body of an OK
    answer is read at type [AuthResponse]. *)
Variable auth_net : Network AuthResponse.

(** Handle authentication errors by attempting token refresh. *)
Definition handleAuthError : M unit :=
  refreshToken ← TokenManager.getRefreshToken;
  if negb (truthy refreshToken) then
    TokenManager.clearTokens;;
    set_location_href "/login"
  else
    try_catch
      (response ← fetch auth_net
                    (refresh_request (default EmptyString refreshToken));
       if ok response then
         authResponse ← await (json response);
         TokenManager.setTokens clock authResponse
       else
         TokenManager.clearTokens;;
         set_location_href "/login")
      (λ error,
         console_error "Token refresh failed:" error;;
         TokenManager.clearTokens;;
         set_location_href "/login").

Section Generic.
Context {T : Type} `{!Payload T}.
(** The network as a call of [request<T>] sees it. *)
Variable net : Network T.

(** Make an authenticated API request.  The headers are the
    default content type, overridden by the caller's headers, then
    the bearer token when one is stored and not expired. *)
Definition request (endpoint : string) (options : RequestInit)
  : M (ApiResponse T) :=
  let url := baseURL +:+ endpoint in
  let headers :=
    init_headers options ∪ {[ "Content-Type" := "application/json" ]} in
  token ← TokenManager.getAccessToken;
  valid ← (if truthy token then
             expired ← TokenManager.isTokenExpired clock;
             mret (negb expired)
           else mret false);
  let headers :=
    if (valid : bool) then
      <[ "Authorization" :=
           "Bearer " +:+ default EmptyString token ]> headers
    else headers in
  try_catch
    (response ← fetch net
                  (mkRequest url (init_method options) headers
                             (init_body options) (Some timeout));
     if status response =? 401 then
       handleAuthError;;
       throw (ErrorObject "Authentication required")
     else
       data ← await (json response);
       if negb (ok response) then
         d ← await (detail data);
         throw (ErrorObject
                  (default ("HTTP " +:+ pretty (status response) +:+ ": "
                            +:+ statusText response) d))
       else
         mret (mkApiResponse true (Some data) None))
    (λ error,
       console_error ("API Request failed: " +:+ endpoint) error;;
       mret (mkApiResponse false None
               (Some match error with
                     | ErrorObject m => m
                     | OtherValue => "Unknown error occurred"
                     end))).
End Generic.

Definition credentials_json (credentials : LoginCredentials) : string :=
  "{" +:+ JSON_stringify_string "email" +:+ ":"
  +:+ JSON_stringify_string (email credentials) +:+ ","
  +:+ JSON_stringify_string "password" +:+ ":"
  +:+ JSON_stringify_string (password credentials) +:+ "}".

Definition login `{!Payload AuthResponse} (net : Network AuthResponse)
    (credentials : LoginCredentials) : M (ApiResponse AuthResponse) :=
  request net "/api/v1/admin/auth/login"
          (mkRequestInit (Some "POST") ∅
                         (Some (credentials_json credentials))).

Definition logout {T} `{!Payload T} (net : Network T) : M unit :=
  try_finally
    (request net "/api/v1/auth/logout" (mkRequestInit (Some "POST") ∅ None);;
     mret ())
    TokenManager.clearTokens.

Definition getUserProfile {T} `{!Payload T} (net : Network T)
  : M (ApiResponse T) :=
  request net "/api/v1/admin/auth/me" no_options.


Definition createPromptTemplate {T} `{!Payload T} (net : Network T)
    (template : Json) : M (ApiResponse T) :=
  request net "/api/v1/admin/prompt-templates"
          (mkRequestInit (Some "POST") ∅ (Some (JSON_stringify template))).

Definition updatePromptTemplate {T} `{!Payload T} (net : Network T)
    (id : number) (template : Json) : M (ApiResponse T) :=
  request net ("/api/v1/admin/prompt-templates/" +:+ number_toString id)
          (mkRequestInit (Some "PUT") ∅ (Some (JSON_stringify template))).

Definition deletePromptTemplate {T} `{!Payload T} (net : Network T)
    (id : number) : M (ApiResponse T) :=
  request net ("/api/v1/admin/prompt-templates/" +:+ number_toString id)
          (mkRequestInit (Some "DELETE") ∅ None).

(** User management; an argument left out takes its default,
    [page = 1] and [limit = 20]. *)
Definition getUsers {T} `{!Payload T} (net : Network T)
    (page limit : option number) : M (ApiResponse T) :=
  request net ("/api/v1/admin/users?page="
               +:+ number_toString (default (Finite 1) page)
               +:+ "&limit=" +:+ number_toString (default (Finite 20) limit))
          no_options.

Definition getUserDetails {T} `{!Payload T} (net : Network T)
    (userId : number) : M (ApiResponse T) :=
  request net ("/api/v1/admin/users/" +:+ number_toString userId) no_options.

Definition updateUserStatus {T} `{!Payload T} (net : Network T)
    (userId : number) (status : string) : M (ApiResponse T) :=
  request net ("/api/v1/admin/users/" +:+ number_toString userId +:+ "/status")
          (mkRequestInit (Some "PUT") ∅
             (Some (JSON_stringify (JObj [("status", JStr status)])))).
End WithEnvironment.
End ApiClient.

(** [export const isAuthenticated = (): boolean =>
    TokenManager.isAuthenticated()] *)
Definition isAuthenticated : Clock → M bool := TokenManager.isAuthenticated.

(** ** More of the JavaScript string library *)

(** [String.prototype.trimEnd()] and [trim()]. *)
Fixpoint trimEnd (s : string) : string :=
  match s with
  | String c s' =>
      match trimEnd s' with
      | EmptyString => if is_white_space c then EmptyString
                       else String c EmptyString
      | rest => String c rest
      end
  | EmptyString => EmptyString
  end.

Definition trim (s : string) : string := trimEnd (trimStart s).

(** [String.prototype.toLowerCase()] on one code unit below 256: the
    letters A-Z and the accented capitals 192-222 (but the multiplication
    sign, 215) move up by 32. *)
Definition lower_char (c : ascii) : ascii :=
  let n := N_of_ascii c in
  if ((65 <=? n) && (n <=? 90)
      || (192 <=? n) && (n <=? 222) && negb (n =? 215))%N
  then ascii_of_N (n + 32) else c.

Fixpoint toLowerCase (s : string) : string :=
  match s with
  | String c s' => String (lower_char c) (toLowerCase s')
  | EmptyString => EmptyString
  end.

(** [String.prototype.substring(start, end)]: both indices are clamped
    to the length, [end] left out is the length, and the smaller index
    comes first. *)
Definition js_substring (s : string) (start : nat) (end_ : option nat)
  : string :=
  let len := String.length s in
  let finalStart := Nat.min start len in
  let finalEnd := Nat.min (default len end_) len in
  let from := Nat.min finalStart finalEnd in
  let to := Nat.max finalStart finalEnd in
  String.substring from (to - from) s.

(** The class [\w] of a regular expression without flags. *)
Definition is_word_char (c : ascii) : bool :=
  let n := N_of_ascii c in
  ((48 <=? n) && (n <=? 57) || (65 <=? n) && (n <=? 90)
   || (97 <=? n) && (n <=? 122) || (n =? 95))%N.

(** [toUpperCase()] of a single [\w] character. *)
Definition upper_word_char (c : ascii) : ascii :=
  let n := N_of_ascii c in
  if ((97 <=? n) && (n <=? 122))%N then ascii_of_N (n - 32) else c.

(** [s.replace(/_/g, ' ')] *)
Fixpoint replace_underscores (s : string) : string :=
  match s with
  | String c s' =>
      String (if (N_of_ascii c =? 95)%N then " "%char else c)
             (replace_underscores s')
  | EmptyString => EmptyString
  end.

(** [s.replace(/\b\w/g, l => l.toUpperCase())]: a word character is
    replaced when the character before it is not one; [after_word] says
    whether the previous character was a word character. *)
Fixpoint capitalize_words (after_word : bool) (s : string) : string :=
  match s with
  | String c s' =>
      String (if is_word_char c && negb after_word
              then upper_word_char c else c)
             (capitalize_words (is_word_char c) s')
  | EmptyString => EmptyString
  end.

(** [value || fallback] on a [string | undefined]. *)
Definition or_else (value : option string) (fallback : string) : string :=
  if truthy value then default EmptyString value else fallback.

(** ** The prompts management component *)

Module PromptsManagement.

Record PromptFormData : Type := mkPromptFormData {
  content : string;
  category : string;
  isActive : bool
}.

Record Category : Type := mkCategory {
  value : string;
  label : string
}.

(** The text area of the content field, as far as the handlers read it. *)
Record Textarea : Type := mkTextarea {
  selectionStart : nat;
  selectionEnd : nat
}.

Section WithEnvironment.
Variable clock : Clock.
Variable auth_net : Network AuthResponse.


(** The [mutationFn] of [createPromptMutation]. *)
Definition createPrompt {T} `{!Payload T} (net : Network T)
    (promptData : PromptFormData) : M (option T) :=
  let templateData :=
    JObj [("content", JStr (content promptData));
          ("category", JStr (or_else (Some (category promptData))
                                     "facebook_ad"));
          ("is_active", JBool (isActive promptData))] in
  response ← ApiClient.createPromptTemplate clock auth_net net templateData;
  if negb (success response) then
    throw (ErrorObject (or_else (message response)
                                "Failed to create prompt template"))
  else mret (data response).

(** The [mutationFn] of [updatePromptMutation]. *)
Definition updatePrompt {T} `{!Payload T} (net : Network T)
    (id : number) (data_ : PromptFormData) : M (option T) :=
  response ← ApiClient.updatePromptTemplate clock auth_net net id
               (JObj [("content", JStr (content data_));
                      ("category", JStr (category data_));
                      ("is_active", JBool (isActive data_))]);
  if negb (success response) then
    throw (ErrorObject (or_else (message response)
                                "Failed to update prompt template"))
  else mret (data response).

(** The [mutationFn] of [deletePromptMutation]. *)
Definition deletePrompt {T} `{!Payload T} (net : Network T)
    (id : number) : M (option T) :=
  response ← ApiClient.deletePromptTemplate clock auth_net net id;
  if negb (success response) then
    throw (ErrorObject (or_else (message response)
                                "Failed to delete prompt template"))
  else mret (data response).

End WithEnvironment.

(** The new value of the content field and, when there is a text area,
    the position the cursor is then moved to. *)
Definition handleVariableInsert (textarea : option Textarea)
    (currentContent variable : string) : string * option nat :=
  match textarea with
  | Some t =>
      let startPos := selectionStart t in
      let endPos := selectionEnd t in
      let newContent :=
        js_substring currentContent 0 (Some startPos) +:+ variable
        +:+ js_substring currentContent endPos None in
      (newContent, Some (startPos + String.length variable)%nat)
  | None => (currentContent +:+ variable, None)
  end.

Definition getCategoryLabel (categories : list Category) (value_ : string)
  : string :=
  if negb (truthy (Some value_)) || String.eqb (trim value_) EmptyString
  then "Uncategorized"
  else
    let fallback := capitalize_words false (replace_underscores value_) in
    match find (λ cat, String.eqb (value cat) value_) categories with
    | Some cat => or_else (Some (label cat)) fallback
    | None => fallback
    end.

End PromptsManagement.

(** * Specification *)

(** The result and the final world of running a computation. *)
Definition run {A} (m : M A) (w : World) : Outcome A := fst (m w).
Definition exec {A} (m : M A) (w : World) : World := snd (m w).

(** The Token Store holds none of its three fields. *)
Definition cleared (w : World) : Prop :=
  localStorage w !! TokenManager.ACCESS_TOKEN_KEY = None
  ∧ localStorage w !! TokenManager.REFRESH_TOKEN_KEY = None
  ∧ localStorage w !! TokenManager.TOKEN_EXPIRY_KEY = None.

Global Instance cleared_dec w : Decision (cleared w).
Proof. unfold cleared. apply _. Defined.

(** A world whose local storage holds exactly the given entries. *)
Definition world_of (entries : list (string * string)) (n : nat) : World :=
  mkWorld (list_to_map entries) "/" [] [] n.



(** The world after [clearTokens()] and the redirect to the login
    route. *)
Definition forced_logout (w : World) : World :=
  exec (TokenManager.clearTokens;; set_location_href "/login") w.

(** The request that a call of the gateway handed to [fetch] first:
    the entry its run added to the log of [w]. *)
Definition primary_request (w w' : World) : option Request :=
  fetched w' !! length (fetched w).

(** The message a [catch] clause of the gateway reports for a thrown
    value. *)
Definition error_message (error : Thrown) : string :=
  match error with
  | ErrorObject m => m
  | OtherValue => "Unknown error occurred"
  end.

(** The failure envelope for a thrown value. *)
Definition failed {T} (error : Thrown) : ApiResponse T :=
  mkApiResponse false None (Some (error_message error)).

(** The headers and the world at the point where [request] enters its
    [try] block. *)
Definition outbound_headers (clock : Clock) (options : RequestInit)
    (w : World) : gmap string string :=
  let base :=
    init_headers options ∪ {[ "Content-Type" := "application/json" ]} in
  match localStorage w !! TokenManager.ACCESS_TOKEN_KEY with
  | Some (String c t) =>
      match run (TokenManager.isTokenExpired clock) w with
      | Return false => <[ "Authorization" := "Bearer " +:+ String c t ]> base
      | _ => base
      end
  | _ => base
  end.

Definition header_world (clock : Clock) (w : World) : World :=
  match localStorage w !! TokenManager.ACCESS_TOKEN_KEY with
  | Some (String _ _) => exec (TokenManager.isTokenExpired clock) w
  | _ => w
  end.

(** The request that [request] hands to [fetch]. *)
Definition outbound_request (clock : Clock) (endpoint : string)
    (options : RequestInit) (w : World) : Request :=
  mkRequest (ApiClient.baseURL +:+ endpoint) (init_method options)
            (outbound_headers clock options w) (init_body options)
            (Some ApiClient.timeout).

(** The POSTs of the refresh protocol started in a world: one when a
    refresh token is stored, none otherwise. *)
Definition refresh_posts (w : World) : list Request :=
  match localStorage w !! TokenManager.REFRESH_TOKEN_KEY with
  | Some (String c t) => [ApiClient.refresh_request (String c t)]
  | _ => []
  end.

(** The envelope is a success with data and no message, or a failure
    with a message and no data. *)
Definition well_formed {T} (envelope : ApiResponse T) : Prop :=
  (success envelope = true ∧ is_Some (data envelope)
   ∧ message envelope = None)
  ∨ (success envelope = false ∧ data envelope = None
     ∧ is_Some (message envelope)).

(** ** Sample sessions *)

Module Sample.
Definition clock : Clock := λ _, 1700000000000.

Definition pair : AuthResponse :=
  mkAuthResponse "a2" "r2" "bearer" (Finite 3600).

Definition credentials : LoginCredentials :=
  mkLoginCredentials "admin@example.com" "correct horse".

(** A live session, one past its expiry, one without a refresh token,
    one whose access token is the empty string, one whose expiry is
    not a number, and no session at all. *)
Definition session : World :=
  world_of [(TokenManager.ACCESS_TOKEN_KEY, "a1");
            (TokenManager.REFRESH_TOKEN_KEY, "r1");
            (TokenManager.TOKEN_EXPIRY_KEY, "1700000003600000")] 0.

Definition stale : World :=
  world_of [(TokenManager.ACCESS_TOKEN_KEY, "a1");
            (TokenManager.REFRESH_TOKEN_KEY, "r1");
            (TokenManager.TOKEN_EXPIRY_KEY, "1699999999000")] 0.

Definition no_refresh : World :=
  world_of [(TokenManager.ACCESS_TOKEN_KEY, "a1");
            (TokenManager.TOKEN_EXPIRY_KEY, "1700000003600000")] 0.

Definition empty_token : World :=
  world_of [(TokenManager.ACCESS_TOKEN_KEY, EmptyString);
            (TokenManager.REFRESH_TOKEN_KEY, "r1");
            (TokenManager.TOKEN_EXPIRY_KEY, "1700000003600000")] 0.

Definition garbled : World :=
  world_of [(TokenManager.ACCESS_TOKEN_KEY, "tok");
            (TokenManager.TOKEN_EXPIRY_KEY, "abc")] 0.

Definition signed_out : World := world_of [] 0.

(** A network that gives the same answer to every request. *)
Definition answer {T} (reply : Outcome (Response T)) : Network T :=
  λ _ _, reply.

Definition unauthorized {T} : Response T :=
  mkResponse 401 "Unauthorized" (Throw (ErrorObject "Unexpected token"))  .

Definition granted : Response AuthResponse :=
  mkResponse 200 "OK" (Return pair).

Definition forbidden : Response AuthResponse :=
  mkResponse 403 "Forbidden" (Throw (ErrorObject "Unexpected token")).

(** Bodies without a [detail] property. *)
Definition no_detail {T} : Payload T := λ _, Return None.
End Sample.

(** ** Components: state, handlers *)

(** A handler of a component runs over the state of that component and
    may throw. *)
Definition Eff (S A : Type) : Type := S → Outcome A * S.

Global Instance Eff_ret S : MRet (Eff S) | 100 := λ A a st, (Return a, st).

Global Instance Eff_bind S : MBind (Eff S) | 100 := λ A B f m st,
  match m st with
  | (Return a, st') => f a st'
  | (Throw e, st') => (Throw e, st')
  end.

Definition eff_await {S A} (o : Outcome A) : Eff S A := λ st, (o, st).

Definition eff_try_catch {S A} (body : Eff S A) (handler : Thrown → Eff S A)
  : Eff S A := λ st,
  match body st with
  | (Return a, st') => (Return a, st')
  | (Throw e, st') => handler e st'
  end.

Definition eff_try_finally {S A} (body : Eff S A) (cleanup : Eff S unit)
  : Eff S A := λ st,
  match body st with
  | (r, st') =>
      match cleanup st' with
      | (Return _, st'') => (r, st'')
      | (Throw e, st'') => (Throw e, st'')
      end
  end.

(** *** The login page *)

Module LoginPage.

Record LoginFormData : Type := mkLoginFormData {
  form_email : string;
  form_password : string
}.

Record State : Type := mkState {
  showPassword : bool;
  loginError : string;
  isSubmitting : bool;
  console_lines : list (string * Thrown)
}.

Definition setShowPassword (b : bool) : Eff State unit := λ st,
  (Return (),
   mkState b (loginError st) (isSubmitting st) (console_lines st)).

Definition setLoginError (text : string) : Eff State unit := λ st,
  (Return (),
   mkState (showPassword st) text (isSubmitting st) (console_lines st)).

Definition setIsSubmitting (b : bool) : Eff State unit := λ st,
  (Return (),
   mkState (showPassword st) (loginError st) b (console_lines st)).

Definition log_error (line : string) (error : Thrown) : Eff State unit :=
  λ st,
  (Return (),
   mkState (showPassword st) (loginError st) (isSubmitting st)
           (console_lines st ++ [(line, error)])).

Section WithAuth.
Context {T : Type}.
(** [login] of the authentication context: the outcome of awaiting it
    for given credentials. *)
Variable login : LoginCredentials → Outcome (ApiResponse T).

(** Handle form submission. *)
Definition onSubmit (data_ : LoginFormData) : Eff State unit :=
  eff_try_finally
    (eff_try_catch
       (setIsSubmitting true;;
        setLoginError EmptyString;;
        let credentials :=
          mkLoginCredentials (toLowerCase (trim (form_email data_)))
                             (form_password data_) in
        result ← eff_await (login credentials);
        if negb (success result) then
          setLoginError (or_else (message result)
                                 "Login failed. Please try again.")
        else mret ())
       (λ error,
          log_error "Login submission error:" error;;
          setLoginError "An unexpected error occurred. Please try again."))
    (setIsSubmitting false).
End WithAuth.

(** Toggle password visibility. *)
Definition togglePasswordVisibility : Eff State unit := λ st,
  setShowPassword (negb (showPassword st)) st.

(** Clear login error when user starts typing. *)
Definition clearError : Eff State unit := λ st,
  if truthy (Some (loginError st)) then setLoginError EmptyString st
  else (Return (), st).

End LoginPage.

(** *** The campaigns page *)

Module CampaignsPage.

(** The answer of [api.campaigns.getCampaigns()]. *)
Record CampaignsResponse (C : Type) : Type := mkCampaignsResponse {
  resp_success : bool;
  resp_data : option (list C);
  resp_error : option string
}.
Arguments mkCampaignsResponse {C} _ _ _.
Arguments resp_success {C} _.
Arguments resp_data {C} _.
Arguments resp_error {C} _.

Inductive ConsoleLine : Type :=
  | Log (line : string) (error : option string)
  | Error (line : string) (error : Thrown).

Record State (C : Type) : Type := mkState {
  campaigns : list C;
  isLoading : bool;
  console_lines : list ConsoleLine
}.
Arguments mkState {C} _ _ _.
Arguments campaigns {C} _.
Arguments isLoading {C} _.
Arguments console_lines {C} _.

Section WithApi.
Context {C : Type}.
Variable getCampaigns : Outcome (CampaignsResponse C).

Definition setCampaigns (cs : list C) : Eff (State C) unit := λ st,
  (Return (), mkState cs (isLoading st) (console_lines st)).

Definition setIsLoading (b : bool) : Eff (State C) unit := λ st,
  (Return (), mkState (campaigns st) b (console_lines st)).

Definition console_write (line : ConsoleLine) : Eff (State C) unit := λ st,
  (Return (),
   mkState (campaigns st) (isLoading st) (console_lines st ++ [line])).

Definition loadCampaigns : Eff (State C) unit :=
  eff_try_finally
    (eff_try_catch
       (setIsLoading true;;
        response ← eff_await getCampaigns;
        match resp_success response, resp_data response with
        | true, Some cs => setCampaigns cs
        | _, _ =>
            console_write (Log "No campaigns found or error:"
                               (resp_error response));;
            setCampaigns []
        end)
       (λ error,
          console_write (Error "Failed to load campaigns:" error);;
          setCampaigns []))
    (setIsLoading false).
End WithApi.

End CampaignsPage.

(** ** Reading a quoted string back *)

Definition hex_value (c : ascii) : option N :=
  let n := N_of_ascii c in
  if ((48 <=? n) && (n <=? 57))%N then Some (n - 48)%N
  else if ((97 <=? n) && (n <=? 102))%N then Some (n - 87)%N
  else None.

(** Reads the characters of a JSON string literal up to its closing
    quote: the text they denote and what follows the quote. *)
Fixpoint unquote_chars (s : string) : option (string * string) :=
  match s with
  | EmptyString => None
  | String c rest =>
      if (N_of_ascii c =? 34)%N then Some (EmptyString, rest)
      else if (N_of_ascii c =? 92)%N then
        match rest with
        | String e rest' =>
            let plain (d : ascii) :=
              match unquote_chars rest' with
              | Some (text, after) => Some (String d text, after)
              | None => None
              end in
            if (N_of_ascii e =? 34)%N then plain double_quote
            else if (N_of_ascii e =? 92)%N then plain "\"%char
            else if (N_of_ascii e =? 98)%N then plain (ascii_of_N 8)
            else if (N_of_ascii e =? 102)%N then plain (ascii_of_N 12)
            else if (N_of_ascii e =? 110)%N then plain (ascii_of_N 10)
            else if (N_of_ascii e =? 114)%N then plain (ascii_of_N 13)
            else if (N_of_ascii e =? 116)%N then plain (ascii_of_N 9)
            else if (N_of_ascii e =? 117)%N then
              match rest' with
              | String "0" (String "0" (String h1 (String h2 rest''))) =>
                  match hex_value h1, hex_value h2, unquote_chars rest'' with
                  | Some a, Some b, Some (text, after) =>
                      Some (String (ascii_of_N (16 * a + b)) text, after)
                  | _, _, _ => None
                  end
              | _ => None
              end
            else None
        | EmptyString => None
        end
      else
        match unquote_chars rest with
        | Some (text, after) => Some (String c text, after)
        | None => None
        end
  end.

(** Whether a character occurs in a string. *)
Fixpoint contains_char (c : ascii) (s : string) : bool :=
  match s with
  | String d s' => Ascii.eqb c d || contains_char c s'
  | EmptyString => false
  end.

(** ** Proof automation *)

(** Runs the [try] block of [request] along each of its paths;
    [returns] is the fact that the refresh protocol does not throw. *)
Ltac gateway_paths returns :=
  unfold try_catch, mbind, M_bind, fetch, await, mret, M_ret, throw,
    console_error, failed, error_message;
  cbn [fst snd negb fetched];
  repeat match goal with
    | |- context [match ?net ?log ?req with Return _ => _ | Throw _ => _ end] =>
        destruct (net log req) as [?r|?e]
    | |- context [if status ?r =? 401 then _ else _] =>
        destruct (status r =? 401)
    | |- context [ApiClient.handleAuthError ?clock ?auth_net ?w1] =>
        let Hret := fresh "Hret" in
        let o := fresh "o" in
        pose proof (returns clock auth_net w1) as Hret;
        unfold run in Hret;
        destruct (ApiClient.handleAuthError clock auth_net w1) as [o ?];
        cbn in Hret; subst o
    | |- context [match json ?r with Return _ => _ | Throw _ => _ end] =>
        destruct (json r) as [?d|?e]
    | |- context [if ok ?r then _ else _] => destruct (ok r)
    | |- context [match detail ?d with Return _ => _ | Throw _ => _ end] =>
        destruct (detail d) as [?m|?e]
    | _ => progress cbn [fst snd negb fetched]
    end;
  try done.

(** * Properties *)

(** ** Running the Token Store operations *)

Section TokenStore.
Variable clock : Clock.

Lemma clearTokens_run w :
  TokenManager.clearTokens w =
  (Return (),
   mkWorld (delete TokenManager.TOKEN_EXPIRY_KEY
              (delete TokenManager.REFRESH_TOKEN_KEY
                 (delete TokenManager.ACCESS_TOKEN_KEY (localStorage w))))
           (location_href w) (console w) (fetched w) (ticks w)).
Proof. reflexivity. Qed.

Lemma clearTokens_cleared w : cleared (exec TokenManager.clearTokens w).
Proof.
  unfold exec. rewrite clearTokens_run. unfold cleared. cbn.
  rewrite !lookup_delete. repeat case_decide; done.
Qed.

Lemma cleared_clearTokens w :
  cleared w → exec TokenManager.clearTokens w = w.
Proof.
  intros (Ha & Hr & He). unfold exec. rewrite clearTokens_run. cbn.
  destruct w as [ls href con log n]; cbn in *. f_equal.
  by rewrite (delete_id _ _ Ha), (delete_id _ _ Hr), (delete_id _ _ He).
Qed.

Lemma setTokens_run a w :
  TokenManager.setTokens clock a w =
  (Return (),
   mkWorld (<[TokenManager.TOKEN_EXPIRY_KEY :=
                number_toString
                  (number_add (Finite (clock (ticks w)))
                              (number_mul (expires_in a) (Finite 1000)))]>
              (<[TokenManager.REFRESH_TOKEN_KEY := refresh_token a]>
                 (<[TokenManager.ACCESS_TOKEN_KEY := access_token a]>
                    (localStorage w))))
           (location_href w) (console w) (fetched w) (S (ticks w))).
Proof. reflexivity. Qed.

Lemma getAccessToken_run w :
  TokenManager.getAccessToken w =
  (Return (localStorage w !! TokenManager.ACCESS_TOKEN_KEY), w).
Proof. reflexivity. Qed.

Lemma getRefreshToken_run w :
  TokenManager.getRefreshToken w =
  (Return (localStorage w !! TokenManager.REFRESH_TOKEN_KEY), w).
Proof. reflexivity. Qed.

(** [isTokenExpired] never throws, and reads the clock at most once. *)
Lemma isTokenExpired_total w :
  ∃ b, run (TokenManager.isTokenExpired clock) w = Return b.
Proof.
  unfold run, TokenManager.isTokenExpired, mbind, M_bind, Storage.getItem.
  cbn. destruct (localStorage w !! _) as [[|c s]|]; cbn; eauto.
Qed.

End TokenStore.

(** ** [parseInt] reads back what [toString] prints *)

Section ParseIntRoundTrip.









(** [NaN] does not survive the round trip as a number either: it is
    printed as the three letters and read back as [NaN]. *)
Lemma parseInt_toString_NaN : parseInt (number_toString NaN) = NaN.
Proof. reflexivity. Qed.

End ParseIntRoundTrip.

(** ** The Token Store *)

Section TokenStoreProperties.
Variable clock : Clock.

Lemma isTokenExpired_run w :
  TokenManager.isTokenExpired clock w =
  match localStorage w !! TokenManager.TOKEN_EXPIRY_KEY with
  | Some (String c s) =>
      (Return (number_ge (Finite (clock (ticks w))) (parseInt (String c s))),
       mkWorld (localStorage w) (location_href w) (console w) (fetched w)
               (S (ticks w)))
  | _ => (Return true, w)
  end.
Proof.
  unfold TokenManager.isTokenExpired, mbind, M_bind, Storage.getItem.
  by destruct (localStorage w !! _) as [[|c s]|].
Qed.

Lemma isTokenExpired_storage w :
  localStorage (exec (TokenManager.isTokenExpired clock) w) = localStorage w
  ∧ location_href (exec (TokenManager.isTokenExpired clock) w)
    = location_href w
  ∧ fetched (exec (TokenManager.isTokenExpired clock) w) = fetched w
  ∧ console (exec (TokenManager.isTokenExpired clock) w) = console w.
Proof.
  unfold exec. rewrite isTokenExpired_run.
  by destruct (localStorage w !! _) as [[|c s]|].
Qed.

Lemma isAuthenticated_run w :
  TokenManager.isAuthenticated clock w =
  match localStorage w !! TokenManager.ACCESS_TOKEN_KEY with
  | Some _ =>
      match TokenManager.isTokenExpired clock w with
      | (Return expired, w') => (Return (negb expired), w')
      | (Throw e, w') => (Throw e, w')
      end
  | None => (Return false, w)
  end.
Proof.
  unfold TokenManager.isAuthenticated, mbind, M_bind.
  rewrite getAccessToken_run.
  destruct (localStorage w !! _); [|done].
  by destruct (TokenManager.isTokenExpired clock w) as [[[]|] ?].
Qed.

(** C6.  [isAuthenticated()] returns a boolean without throwing, and
    that boolean is [true] if and only if an access token is present
    and [isTokenExpired()] returns [false], whatever the store holds. *)
Theorem isAuthenticated_iff_present_and_not_expired w :
  (∃ b, run (TokenManager.isAuthenticated clock) w = Return b)
  ∧ (run (TokenManager.isAuthenticated clock) w = Return true
     ↔ (∃ token, run TokenManager.getAccessToken w = Return (Some token))
       ∧ run (TokenManager.isTokenExpired clock) w = Return false).
Proof.
  unfold run. rewrite isAuthenticated_run, getAccessToken_run. cbn [fst].
  destruct (isTokenExpired_total clock w) as [b Hb]. unfold run in Hb.
  destruct (TokenManager.isTokenExpired clock w) as [r w']. cbn in Hb.
  subst r. cbn [fst].
  destruct (localStorage w !! _) as [token|].
  - split; [eauto|]. destruct b; cbn; split.
    + done.
    + by intros [_ ?].
    + eauto.
    + done.
  - split; [eauto|]. split; [done|]. by intros [[token ?] _].
Qed.

(** C7.  [isTokenExpired()] returns [true] when no expiry is recorded
    and when the clock reads at least the recorded expiry, and [false]
    when the recorded expiry is strictly later than the clock. *)
Theorem isTokenExpired_missing_or_elapsed w :
  (localStorage w !! TokenManager.TOKEN_EXPIRY_KEY = None →
   run (TokenManager.isTokenExpired clock) w = Return true)
  ∧ (∀ s expiry,
       localStorage w !! TokenManager.TOKEN_EXPIRY_KEY = Some s →
       parseInt s = Finite expiry →
       expiry ≤ clock (ticks w) →
       run (TokenManager.isTokenExpired clock) w = Return true)
  ∧ (∀ s expiry,
       localStorage w !! TokenManager.TOKEN_EXPIRY_KEY = Some s →
       parseInt s = Finite expiry →
       clock (ticks w) < expiry →
       run (TokenManager.isTokenExpired clock) w = Return false).
Proof.
  unfold run. rewrite isTokenExpired_run. repeat split.
  - by intros ->.
  - intros s expiry -> Hparse Hle. destruct s as [|c s]; [done|].
    cbn [fst]. rewrite Hparse. cbn. f_equal. by apply Z.leb_le.
  - intros s expiry -> Hparse Hlt. destruct s as [|c s]; [done|].
    cbn [fst]. rewrite Hparse. cbn. f_equal. by apply Z.leb_gt.
Qed.


(** C10.  [clearTokens()] returns normally, leaves the store cleared,
    and a second call in a row does the same and changes nothing. *)
Theorem clearTokens_idempotent w :
  let w1 := exec TokenManager.clearTokens w in
  let w2 := exec TokenManager.clearTokens w1 in
  run TokenManager.clearTokens w = Return ()
  ∧ run TokenManager.clearTokens w1 = Return ()
  ∧ cleared w1 ∧ cleared w2 ∧ w2 = w1.
Proof.
  intros w1 w2. pose proof (clearTokens_cleared w) as H1.
  assert (w2 = w1) as Heq by by apply cleared_clearTokens.
  repeat split; try done; rewrite ?Heq; apply H1.
Qed.

End TokenStoreProperties.

(** ** The refresh protocol *)

Section RefreshProtocol.
Variable clock : Clock.
Variable auth_net : Network AuthResponse.

Lemma forced_logout_spec w :
  cleared (forced_logout w)
  ∧ location_href (forced_logout w) = "/login"
  ∧ fetched (forced_logout w) = fetched w
  ∧ console (forced_logout w) = console w
  ∧ ticks (forced_logout w) = ticks w.
Proof.
  unfold forced_logout, exec, mbind, M_bind. rewrite clearTokens_run.
  split; [|done]. apply (clearTokens_cleared w).
Qed.

Lemma handleAuthError_run w :
  ApiClient.handleAuthError clock auth_net w =
  match localStorage w !! TokenManager.REFRESH_TOKEN_KEY with
  | Some (String c t) =>
      let req := ApiClient.refresh_request (String c t) in
      let w1 := exec (fetch auth_net req) w in
      match auth_net (fetched w) req with
      | Return r =>
          if ok r then
            match json r with
            | Return a => TokenManager.setTokens clock a w1
            | Throw e =>
                (Return (),
                 forced_logout
                   (exec (console_error "Token refresh failed:" e) w1))
            end
          else (Return (), forced_logout w1)
      | Throw e =>
          (Return (),
           forced_logout (exec (console_error "Token refresh failed:" e) w1))
      end
  | _ => (Return (), forced_logout w)
  end.
Proof.
  unfold ApiClient.handleAuthError, mbind, M_bind.
  rewrite getRefreshToken_run.
  destruct (localStorage w !! _) as [[|c t]|]; try done.
  cbn [truthy negb default]. unfold try_catch, mbind, M_bind, fetch, exec.
  cbn [snd].
  destruct (auth_net (fetched w) _) as [r|e]; [|done].
  destruct (ok r); [|done].
  unfold await. by destruct (json r).
Qed.

(** The refresh protocol never throws. *)
Lemma handleAuthError_returns w :
  run (ApiClient.handleAuthError clock auth_net) w = Return ().
Proof.
  unfold run. rewrite handleAuthError_run.
  destruct (localStorage w !! _) as [[|c t]|]; try done. cbv zeta.
  destruct (auth_net (fetched w) _) as [r|e]; [|done].
  destruct (ok r); [|done]. by destruct (json r).
Qed.

(** It issues one POST to the refresh endpoint when a refresh token is
    stored, and nothing otherwise. *)
Lemma handleAuthError_fetched w :
  fetched (exec (ApiClient.handleAuthError clock auth_net) w) =
  fetched w ++
    match localStorage w !! TokenManager.REFRESH_TOKEN_KEY with
    | Some (String c t) => [ApiClient.refresh_request (String c t)]
    | _ => []
    end.
Proof.
  unfold exec. rewrite handleAuthError_run.
  destruct (localStorage w !! _) as [[|c t]|];
    try (cbn; by rewrite app_nil_r).
  cbv zeta.
  destruct (auth_net (fetched w) _) as [r|e]; [|done].
  destruct (ok r); [|done]. by destruct (json r).
Qed.

(** C3.  With a refresh token stored, the protocol POSTs it once.  If
    the answer is OK and carries a Token Pair, the pair is stored:
    [getAccessToken()] returns the new access token and the browser
    stays where it is.  If the answer is not OK, or the POST fails,
    the Token Store is cleared and the browser is sent to the login
    route. *)
Theorem refresh_stores_or_clears w refreshToken :
  localStorage w !! TokenManager.REFRESH_TOKEN_KEY = Some refreshToken →
  refreshToken ≠ EmptyString →
  let reply := auth_net (fetched w) (ApiClient.refresh_request refreshToken) in
  let w' := exec (ApiClient.handleAuthError clock auth_net) w in
  run (ApiClient.handleAuthError clock auth_net) w = Return ()
  ∧ fetched w' = fetched w ++ [ApiClient.refresh_request refreshToken]
  ∧ (∀ r pair,
       reply = Return r → ok r = true → json r = Return pair →
       w' = exec (TokenManager.setTokens clock pair)
                 (exec (fetch auth_net
                          (ApiClient.refresh_request refreshToken)) w)
       ∧ run TokenManager.getAccessToken w'
         = Return (Some (access_token pair))
       ∧ run TokenManager.getRefreshToken w'
         = Return (Some (refresh_token pair))
       ∧ location_href w' = location_href w)
  ∧ ((∃ r, reply = Return r ∧ ok r = false) ∨ (∃ e, reply = Throw e) →
     cleared w'
     ∧ run TokenManager.getAccessToken w' = Return None
     ∧ location_href w' = "/login").
Proof.
  intros Hrt Hne reply w'. split; [apply handleAuthError_returns|].
  split.
  { subst w'. rewrite handleAuthError_fetched, Hrt.
    by destruct refreshToken. }
  pose proof (handleAuthError_run w) as Hrun. rewrite Hrt in Hrun.
  destruct refreshToken as [|c t]; [done|]. cbv zeta in Hrun.
  subst w' reply.
  change (exec (ApiClient.handleAuthError clock auth_net) w)
    with (snd (ApiClient.handleAuthError clock auth_net w)).
  split.
  - intros r pair Hr Hok Hjson. rewrite Hr, Hok, Hjson in Hrun.
    rewrite Hrun. split; [done|]. rewrite setTokens_run. cbn [snd].
    unfold run. rewrite getAccessToken_run, getRefreshToken_run.
    cbn [fst localStorage location_href].
    rewrite lookup_insert_ne, lookup_insert_ne, lookup_insert_eq by done.
    by rewrite lookup_insert_ne, lookup_insert_eq.
  - assert (Hlogout : ∀ w1,
              cleared (forced_logout w1)
              ∧ run TokenManager.getAccessToken (forced_logout w1)
                = Return None
              ∧ location_href (forced_logout w1) = "/login").
    { intros w1. destruct (forced_logout_spec w1) as (Hc & Hh & _).
      split; [done|]. split; [|done].
      unfold run. rewrite getAccessToken_run. cbn [fst].
      by rewrite (proj1 Hc). }
    intros [(r & Hr & Hok)|(e & Hr)]; rewrite Hr in Hrun.
    + rewrite Hok in Hrun. rewrite Hrun. cbn [snd]. apply Hlogout.
    + rewrite Hrun. cbn [snd]. apply Hlogout.
Qed.

End RefreshProtocol.

(** ** The request gateway *)

Section Gateway.
Variable clock : Clock.
Variable auth_net : Network AuthResponse.
Context {T : Type} `{!Payload T}.
Variable net : Network T.

Lemma header_world_same w :
  localStorage (header_world clock w) = localStorage w
  ∧ location_href (header_world clock w) = location_href w
  ∧ fetched (header_world clock w) = fetched w
  ∧ console (header_world clock w) = console w.
Proof.
  unfold header_world.
  destruct (localStorage w !! _) as [[|c t]|]; try done.
  apply isTokenExpired_storage.
Qed.

(** The whole of [request], path by path. *)
Lemma request_run endpoint options w :
  ApiClient.request clock auth_net net endpoint options w =
  let req :=
    mkRequest (ApiClient.baseURL +:+ endpoint) (init_method options)
              (outbound_headers clock options w) (init_body options)
              (Some ApiClient.timeout) in
  let w1 := exec (fetch net req) (header_world clock w) in
  let fail (error : Thrown) (w2 : World) :=
    (Return (failed error),
     exec (console_error ("API Request failed: " +:+ endpoint) error) w2) in
  match net (fetched w) req with
  | Throw e => fail e w1
  | Return r =>
      if status r =? 401 then
        fail (ErrorObject "Authentication required")
             (exec (ApiClient.handleAuthError clock auth_net) w1)
      else
        match json r with
        | Throw e => fail e w1
        | Return d =>
            if ok r then (Return (mkApiResponse true (Some d) None), w1)
            else
              match detail d with
              | Throw e => fail e w1
              | Return m =>
                  fail (ErrorObject
                          (default ("HTTP " +:+ pretty (status r) +:+ ": "
                                    +:+ statusText r) m)) w1
              end
        end
  end.
Proof.
  cbv zeta.
  unfold ApiClient.request, outbound_headers, header_world, run, exec.
  unfold mbind at 1. unfold M_bind at 1. rewrite getAccessToken_run.
  pose proof (isTokenExpired_total clock w) as [b Hb].
  pose proof (isTokenExpired_storage clock w) as (_ & _ & Hlog & _).
  unfold run, exec in Hb, Hlog.
  destruct (localStorage w !! TokenManager.ACCESS_TOKEN_KEY)
    as [[|c t]|]; cbn [truthy].
  - gateway_paths handleAuthError_returns.
  - unfold mbind at 1. unfold M_bind at 1. unfold mbind at 1.
    unfold M_bind at 1.
    destruct (TokenManager.isTokenExpired clock w) as [o w0].
    cbn in Hb, Hlog. subst o. cbn [fst snd].
    destruct b; unfold try_catch, mbind, M_bind, fetch, mret, M_ret;
      cbn [fst snd negb default from_option id]; rewrite Hlog;
      gateway_paths handleAuthError_returns.
  - gateway_paths handleAuthError_returns.
Qed.

End Gateway.

Section GatewayProperties.
Variable clock : Clock.
Variable auth_net : Network AuthResponse.
Context {T : Type} `{!Payload T}.
Variable net : Network T.

Lemma request_fetched endpoint options w :
  let req := outbound_request clock endpoint options w in
  fetched (exec (ApiClient.request clock auth_net net endpoint options) w) =
  fetched w ++ req ::
    match net (fetched w) req with
    | Return r => if status r =? 401 then refresh_posts w else []
    | Throw _ => []
    end.
Proof.
  intros req. unfold exec. rewrite request_run. cbv zeta.
  fold (outbound_request clock endpoint options w). fold req.
  destruct (header_world_same clock w) as (Hls & _ & Hlog & _).
  assert (H1 : fetched (exec (fetch net req) (header_world clock w))
               = fetched w ++ [req]).
  { unfold exec, fetch. cbn. by rewrite Hlog. }
  destruct (net (fetched w) req) as [r|e]; [|by cbn].
  destruct (status r =? 401).
  - cbn [snd]. unfold exec at 1, console_error. cbn [snd fetched].
    rewrite handleAuthError_fetched, H1. unfold refresh_posts.
    assert (Hls1 : localStorage (exec (fetch net req) (header_world clock w))
                   = localStorage w) by (by unfold exec, fetch; cbn).
    rewrite Hls1. by rewrite <- app_assoc.
  - destruct (json r) as [d|e]; [|by cbn].
    destruct (ok r); [by cbn|]. by destruct (detail d).
Qed.

Lemma request_primary endpoint options w :
  primary_request w
    (exec (ApiClient.request clock auth_net net endpoint options) w)
  = Some (outbound_request clock endpoint options w).
Proof.
  unfold primary_request. rewrite request_fetched. cbv zeta.
  by apply list_lookup_middle.
Qed.

Lemma request_returns endpoint options w :
  ∃ envelope,
    run (ApiClient.request clock auth_net net endpoint options) w
    = Return envelope.
Proof.
  unfold run. rewrite request_run. cbv zeta.
  destruct (net (fetched w) _) as [r|e]; [|by eexists].
  destruct (status r =? 401); [by eexists|].
  destruct (json r) as [d|e]; [|by eexists].
  destruct (ok r); [by eexists|].
  destruct (detail d); by eexists.
Qed.

(** C2.  [request] returns an envelope and never throws.  The envelope
    is a success carrying the parsed body and no message exactly when
    the response is OK and its body parses; on every other path
    (rejected [fetch], status 401, unparsable body, status outside
    200-299) it is a failure carrying a message and no data. *)
Theorem request_always_returns_envelope endpoint options w :
  ∃ envelope req,
    run (ApiClient.request clock auth_net net endpoint options) w
    = Return envelope
    ∧ primary_request w
        (exec (ApiClient.request clock auth_net net endpoint options) w)
      = Some req
    ∧ well_formed envelope
    ∧ match net (fetched w) req with
      | Throw e => envelope = failed e
      | Return r =>
          if status r =? 401 then
            envelope = failed (ErrorObject "Authentication required")
          else
            match json r with
            | Throw e => envelope = failed e
            | Return d =>
                if ok r then envelope = mkApiResponse true (Some d) None
                else ∃ m, envelope = mkApiResponse false None (Some m)
            end
      end.
Proof.
  pose proof (request_primary endpoint options w) as Hreq.
  pose proof (request_run clock auth_net net endpoint options w) as Hrun.
  cbv zeta in Hrun. fold (outbound_request clock endpoint options w) in Hrun.
  set (req := outbound_request clock endpoint options w) in *.
  unfold run. rewrite Hrun.
  assert (Hfail : ∀ e : Thrown, well_formed (failed (T:=T) e)).
  { intros e. right. cbn. eauto. }
  destruct (net (fetched w) req) as [r|e] eqn:Hnet.
  - destruct (status r =? 401) eqn:H401.
    + eexists _, req. rewrite Hnet, H401. cbn [fst]. eauto.
    + destruct (json r) as [d|e] eqn:Hjson.
      * destruct (ok r) eqn:Hok.
        -- eexists _, req. rewrite Hnet, H401, Hjson, Hok. cbn [fst].
           repeat split; try done. left. cbn. eauto.
        -- destruct (detail d) as [m|e]; eexists _, req;
             rewrite Hnet, H401, Hjson, Hok; cbn [fst];
             repeat split; try done; unfold failed; eauto.
      * eexists _, req. rewrite Hnet, H401, Hjson. cbn [fst]. eauto.
  - eexists _, req. rewrite Hnet. cbn [fst]. eauto.
Qed.

Lemma request_unauthorized endpoint options w r :
  net (fetched w) (outbound_request clock endpoint options w) = Return r →
  status r = 401 →
  ApiClient.request clock auth_net net endpoint options w =
  (Return (mkApiResponse false None (Some "Authentication required")),
   exec (console_error ("API Request failed: " +:+ endpoint)
           (ErrorObject "Authentication required"))
        (exec (ApiClient.handleAuthError clock auth_net)
           (exec (fetch net (outbound_request clock endpoint options w))
              (header_world clock w)))).
Proof.
  intros Hnet H401. rewrite request_run. cbv zeta.
  fold (outbound_request clock endpoint options w).
  by rewrite Hnet, H401.
Qed.

Lemma refresh_posts_short w : (length (refresh_posts w) ≤ 1)%nat.
Proof.
  unfold refresh_posts. destruct (localStorage w !! _) as [[|c t]|]; cbn; lia.
Qed.

Lemma outbound_not_refresh_post endpoint options w :
  outbound_request clock endpoint options w ∉ refresh_posts w.
Proof.
  unfold refresh_posts.
  destruct (localStorage w !! _) as [[|c t]|]; try apply not_elem_of_nil.
  intros Hin%list_elem_of_singleton. discriminate Hin.
Qed.

(** C1.  When the response has status 401 the call returns the failure
    envelope with message "Authentication required"; the refresh
    protocol has run once, issuing one POST when a refresh token is
    stored and none otherwise, whatever the refresh endpoint answers;
    and the original request has gone out once only. *)
Theorem unauthorized_refreshes_once_and_fails endpoint options w req r :
  primary_request w
    (exec (ApiClient.request clock auth_net net endpoint options) w)
  = Some req →
  net (fetched w) req = Return r →
  status r = 401 →
  let w' := exec (ApiClient.request clock auth_net net endpoint options) w in
  run (ApiClient.request clock auth_net net endpoint options) w
  = Return (mkApiResponse false None (Some "Authentication required"))
  ∧ w' = exec (console_error ("API Request failed: " +:+ endpoint)
                 (ErrorObject "Authentication required"))
              (exec (ApiClient.handleAuthError clock auth_net)
                 (exec (fetch net req) (header_world clock w)))
  ∧ fetched w' = fetched w ++ req :: refresh_posts w
  ∧ (length (refresh_posts w) ≤ 1)%nat
  ∧ req ∉ refresh_posts w.
Proof.
  rewrite request_primary. intros [= <-] Hnet H401 w'.
  pose proof (request_fetched endpoint options w) as Hlog.
  cbv zeta in Hlog. rewrite Hnet, H401 in Hlog. cbn [Z.eqb Pos.eqb] in Hlog.
  subst w'. unfold run, exec at 1.
  rewrite (request_unauthorized _ _ _ _ Hnet H401). cbn [fst snd].
  repeat split; try done.
  - apply refresh_posts_short.
  - apply outbound_not_refresh_post.
Qed.

(** C4.  When the response has status 401 and no refresh token is
    stored, nothing is sent to the refresh endpoint: the only request
    of the call is the original one, the Token Store is cleared and
    the browser is sent to the login route. *)
Theorem unauthorized_without_refresh_token endpoint options w req r :
  primary_request w
    (exec (ApiClient.request clock auth_net net endpoint options) w)
  = Some req →
  net (fetched w) req = Return r →
  status r = 401 →
  localStorage w !! TokenManager.REFRESH_TOKEN_KEY = None
  ∨ localStorage w !! TokenManager.REFRESH_TOKEN_KEY = Some EmptyString →
  let w' := exec (ApiClient.request clock auth_net net endpoint options) w in
  fetched w' = fetched w ++ [req]
  ∧ cleared w'
  ∧ location_href w' = "/login".
Proof.
  rewrite request_primary. intros [= <-] Hnet H401 Hrt w'.
  pose proof (request_fetched endpoint options w) as Hlog.
  cbv zeta in Hlog. rewrite Hnet, H401 in Hlog. cbn [Z.eqb Pos.eqb] in Hlog.
  split.
  { subst w'. rewrite Hlog. unfold refresh_posts. by destruct Hrt as [->| ->]. }
  subst w'. unfold exec at 1 2.
  rewrite (request_unauthorized _ _ _ _ Hnet H401). cbn [snd].
  set (w1 := exec (fetch net _) _).
  assert (Hrun : exec (ApiClient.handleAuthError clock auth_net) w1
                 = forced_logout w1).
  { unfold exec at 1. rewrite handleAuthError_run.
    assert (Hls : localStorage w1 = localStorage w).
    { subst w1. unfold exec, fetch. cbn.
      apply (header_world_same clock w). }
    rewrite Hls. by destruct Hrt as [->| ->]. }
  rewrite Hrun. destruct (forced_logout_spec w1) as (Hc & Hh & _).
  split; [apply Hc|apply Hh].
Qed.

(** C5 (amended).  The headers of the outbound request are the
    caller's headers over the default content type, plus
    [Authorization: Bearer <token>] when the stored access token is
    non-empty and not expired; when the token is absent, empty or
    expired the gateway adds no [Authorization] header. *)
Theorem request_headers endpoint options w :
  ∃ req,
    primary_request w
      (exec (ApiClient.request clock auth_net net endpoint options) w)
    = Some req
    ∧ req_url req = ApiClient.baseURL +:+ endpoint
    ∧ req_headers req !! "Content-Type"
      = Some (default "application/json"
                      (init_headers options !! "Content-Type"))
    ∧ (∀ token,
         localStorage w !! TokenManager.ACCESS_TOKEN_KEY = Some token →
         token ≠ EmptyString →
         run (TokenManager.isTokenExpired clock) w = Return false →
         req_headers req !! "Authorization" = Some ("Bearer " +:+ token))
    ∧ (localStorage w !! TokenManager.ACCESS_TOKEN_KEY = None
       ∨ localStorage w !! TokenManager.ACCESS_TOKEN_KEY = Some EmptyString
       ∨ run (TokenManager.isTokenExpired clock) w = Return true →
       req_headers req
       = init_headers options ∪ {[ "Content-Type" := "application/json" ]}
       ∧ req_headers req !! "Authorization"
         = init_headers options !! "Authorization").
Proof.
  exists (outbound_request clock endpoint options w).
  split; [apply request_primary|]. split; [done|].
  cbn [outbound_request req_headers].
  assert (Hbase : ∀ key,
    (init_headers options ∪ {[ "Content-Type" := "application/json" ]}
       : gmap string string) !! key
    = match init_headers options !! key with
      | Some v => Some v
      | None => if decide (key = "Content-Type")
                then Some "application/json" else None
      end).
  { intros key. rewrite lookup_union, lookup_singleton.
    destruct (init_headers options !! key) as [v|];
      repeat case_decide; done. }
  unfold outbound_headers. split; [|split].
  - assert (Hct : (init_headers options
                     ∪ {[ "Content-Type" := "application/json" ]}
                   : gmap string string) !! "Content-Type"
            = Some (default "application/json"
                            (init_headers options !! "Content-Type"))).
    { rewrite Hbase. by destruct (init_headers options !! _). }
    destruct (localStorage w !! _) as [[|c t]|]; try done.
    destruct (run _ w) as [[]|]; try done.
    by rewrite lookup_insert_ne.
  - intros token -> Hne Hexp. destruct token as [|c t]; [done|].
    rewrite Hexp. apply lookup_insert_eq.
  - intros Hcase.
    assert (Hauth : (init_headers options
                     ∪ {[ "Content-Type" := "application/json" ]}
                     : gmap string string) !! "Authorization"
                    = init_headers options !! "Authorization").
    { rewrite Hbase. by destruct (init_headers options !! _). }
    destruct Hcase as [->|[->| ->]]; try done.
    by destruct (localStorage w !! _) as [[|c t]|].
Qed.

End GatewayProperties.

(** ** Login *)

Section Login.
Variable clock : Clock.
Variable auth_net : Network AuthResponse.
Context `{!Payload AuthResponse}.
Variable net : Network AuthResponse.

(** C8 (amended).  When the login response is OK and carries a Token
    Pair, [login] returns the success envelope carrying that pair and
    leaves the Token Store as it was; the pair is in the store once
    the caller has handed it to [setTokens], which records the access
    token, the refresh token and the expiry computed from the clock. *)
Theorem login_returns_pair_for_caller_to_store credentials w req r pair :
  primary_request w
    (exec (ApiClient.login clock auth_net net credentials) w) = Some req →
  net (fetched w) req = Return r →
  ok r = true →
  json r = Return pair →
  let w' := exec (ApiClient.login clock auth_net net credentials) w in
  let w'' := exec (TokenManager.setTokens clock pair) w' in
  run (ApiClient.login clock auth_net net credentials) w
  = Return (mkApiResponse true (Some pair) None)
  ∧ localStorage w' = localStorage w
  ∧ location_href w' = location_href w
  ∧ req_url req = ApiClient.baseURL +:+ "/api/v1/admin/auth/login"
  ∧ req_method req = Some "POST"
  ∧ req_body req = Some (ApiClient.credentials_json credentials)
  ∧ run TokenManager.getAccessToken w'' = Return (Some (access_token pair))
  ∧ run TokenManager.getRefreshToken w''
    = Return (Some (refresh_token pair))
  ∧ localStorage w'' !! TokenManager.TOKEN_EXPIRY_KEY
    = Some (number_toString
              (number_add (Finite (clock (ticks w')))
                          (number_mul (expires_in pair) (Finite 1000)))).
Proof.
  unfold ApiClient.login. rewrite request_primary.
  intros [= <-] Hnet Hok Hjson.
  assert (H401 : (status r =? 401) = false).
  { unfold ok in Hok. apply andb_prop in Hok as [_ Hle]. lia. }
  pose proof (request_run clock auth_net net "/api/v1/admin/auth/login"
                (mkRequestInit (Some "POST") ∅
                   (Some (ApiClient.credentials_json credentials))) w)
    as Hrun.
  cbv zeta in Hrun.
  fold (outbound_request clock "/api/v1/admin/auth/login"
          (mkRequestInit (Some "POST") ∅
             (Some (ApiClient.credentials_json credentials))) w) in Hrun.
  rewrite Hnet, H401, Hjson, Hok in Hrun.
  unfold run, exec. rewrite Hrun. cbn [fst snd].
  destruct (header_world_same clock w) as (Hls & Hhref & _).
  rewrite setTokens_run. cbn [fst snd localStorage location_href fetch].
  repeat split; try done.
  - rewrite getAccessToken_run. cbn [fst localStorage].
    by rewrite lookup_insert_ne, lookup_insert_ne, lookup_insert_eq.
  - rewrite getRefreshToken_run. cbn [fst localStorage].
    by rewrite lookup_insert_ne, lookup_insert_eq.
  - by rewrite lookup_insert_eq.
Qed.

End Login.

(** The six combinations of C6: token present or absent, expiry in the
    future, in the past or absent. *)
Example isAuthenticated_combinations :
  map (λ entries,
         run (TokenManager.isAuthenticated Sample.clock) (world_of entries 0))
      [ [(TokenManager.ACCESS_TOKEN_KEY, "a1");
         (TokenManager.TOKEN_EXPIRY_KEY, "1700000003600000")];
        [(TokenManager.ACCESS_TOKEN_KEY, "a1");
         (TokenManager.TOKEN_EXPIRY_KEY, "1699999999000")];
        [(TokenManager.ACCESS_TOKEN_KEY, "a1")];
        [(TokenManager.TOKEN_EXPIRY_KEY, "1700000003600000")];
        [(TokenManager.TOKEN_EXPIRY_KEY, "1699999999000")];
        [] ]
  = [Return true; Return false; Return false;
     Return false; Return false; Return false].
Proof. vm_compute. reflexivity. Qed.

(** C9.  An expiry that is recorded but is not a number is never
    reached: with ["abc"] stored, [isTokenExpired()] returns [false] and
    [isAuthenticated()] returns [true] at every reading of the clock;
    and [setTokens] itself records such an expiry, ["NaN"], when
    [expires_in] is not a number. *)
Theorem non_numeric_expiry_is_not_expired (clock : Clock) :
  run (TokenManager.isTokenExpired clock) Sample.garbled = Return false
  ∧ run (TokenManager.isAuthenticated clock) Sample.garbled = Return true
  ∧ (let w :=
       exec (TokenManager.setTokens clock
               (mkAuthResponse "a2" "r2" "bearer" NaN)) Sample.signed_out in
     localStorage w !! TokenManager.TOKEN_EXPIRY_KEY = Some "NaN"
     ∧ run (TokenManager.isTokenExpired clock) w = Return false
     ∧ run (TokenManager.isAuthenticated clock) w = Return true).
Proof. repeat split. Qed.

(** Any stored expiry that [parseInt] cannot read behaves like that. *)
Lemma isTokenExpired_unreadable_expiry (clock : Clock) w s :
  localStorage w !! TokenManager.TOKEN_EXPIRY_KEY = Some s →
  s ≠ EmptyString →
  parseInt s = NaN →
  run (TokenManager.isTokenExpired clock) w = Return false.
Proof.
  intros Hs Hne Hnan. unfold run. rewrite isTokenExpired_run, Hs.
  destruct s as [|c s]; [done|]. cbn [fst]. by rewrite Hnan.
Qed.

(** ** Counterexamples *)

(** C5 as stated fails for a stored access token that is the empty
    string: the token is present and not expired, [isAuthenticated()]
    is [true], and the outbound request carries no [Authorization]
    header. *)
Lemma empty_access_token_sends_no_bearer :
  run TokenManager.getAccessToken Sample.empty_token
  = Return (Some EmptyString)
  ∧ run (TokenManager.isTokenExpired Sample.clock) Sample.empty_token
    = Return false
  ∧ run (TokenManager.isAuthenticated Sample.clock) Sample.empty_token
    = Return true
  ∧ ∃ req,
      primary_request Sample.empty_token
        (exec (ApiClient.request (T:=unit) (Payload0:=Sample.no_detail)
                 Sample.clock
                 (Sample.answer (Return Sample.granted))
                 (Sample.answer (Throw (ErrorObject "Failed to fetch")))
                 "/api/v1/admin/auth/me" no_options)
              Sample.empty_token)
      = Some req
      ∧ req_headers req = {[ "Content-Type" := "application/json" ]}
      ∧ req_headers req !! "Authorization" = None
      ∧ req_headers req !! "Authorization"
        ≠ Some ("Bearer " +:+ EmptyString).
Proof.
  do 3 (split; [vm_compute; reflexivity|]).
  eexists. split; [vm_compute; reflexivity|].
  repeat split; try (vm_compute; reflexivity). vm_compute. discriminate.
Qed.

(** C8 as stated fails: after a login answered with 200 and a Token
    Pair, [login] has returned the pair and the Token Store is still
    empty. *)
Lemma login_leaves_store_empty :
  run (ApiClient.login (Payload0:=Sample.no_detail) Sample.clock
         (Sample.answer (Return Sample.granted))
         (Sample.answer (Return Sample.granted)) Sample.credentials)
      Sample.signed_out
  = Return (mkApiResponse true (Some Sample.pair) None)
  ∧ run TokenManager.getAccessToken
      (exec (ApiClient.login (Payload0:=Sample.no_detail) Sample.clock
               (Sample.answer (Return Sample.granted))
               (Sample.answer (Return Sample.granted)) Sample.credentials)
            Sample.signed_out)
    = Return None
  ∧ run TokenManager.getAccessToken
      (exec (ApiClient.login (Payload0:=Sample.no_detail) Sample.clock
               (Sample.answer (Return Sample.granted))
               (Sample.answer (Return Sample.granted)) Sample.credentials)
            Sample.signed_out)
    ≠ Return (Some (access_token Sample.pair))
  ∧ localStorage
      (exec (ApiClient.login (Payload0:=Sample.no_detail) Sample.clock
               (Sample.answer (Return Sample.granted))
               (Sample.answer (Return Sample.granted)) Sample.credentials)
            Sample.signed_out)
    = ∅.
Proof.
  repeat split; try (vm_compute; reflexivity). vm_compute. discriminate.
Qed.

(** ** Instances of the theorems on the sample sessions *)

Lemma isTokenExpired_missing_or_elapsed_witness :
  run (TokenManager.isTokenExpired Sample.clock) Sample.signed_out
  = Return true
  ∧ run (TokenManager.isTokenExpired Sample.clock) Sample.stale = Return true
  ∧ run (TokenManager.isTokenExpired Sample.clock) Sample.session
    = Return false.
Proof.
  split; [|split].
  - apply (proj1 (isTokenExpired_missing_or_elapsed
                    Sample.clock Sample.signed_out)).
    reflexivity.
  - apply (proj1 (proj2 (isTokenExpired_missing_or_elapsed
                           Sample.clock Sample.stale))
             "1699999999000" 1699999999000).
    + reflexivity.
    + reflexivity.
    + vm_compute. discriminate.
  - apply (proj2 (proj2 (isTokenExpired_missing_or_elapsed
                           Sample.clock Sample.session))
             "1700000003600000" 1700000003600000).
    + reflexivity.
    + reflexivity.
    + vm_compute. reflexivity.
Defined.

Lemma refresh_stores_or_clears_witness :
  run TokenManager.getAccessToken
      (exec (ApiClient.handleAuthError Sample.clock
               (Sample.answer (Return Sample.granted))) Sample.session)
  = Return (Some "a2")
  ∧ cleared
      (exec (ApiClient.handleAuthError Sample.clock
               (Sample.answer (Return Sample.forbidden))) Sample.session)
  ∧ location_href
      (exec (ApiClient.handleAuthError Sample.clock
               (Sample.answer (Throw (ErrorObject "Failed to fetch"))))
            Sample.session)
    = "/login".
Proof.
  split; [|split].
  - destruct (refresh_stores_or_clears Sample.clock
                (Sample.answer (Return Sample.granted)) Sample.session "r1")
      as (_ & _ & Hok & _).
    + reflexivity.
    + discriminate.
    + apply (Hok Sample.granted Sample.pair); reflexivity.
  - destruct (refresh_stores_or_clears Sample.clock
                (Sample.answer (Return Sample.forbidden)) Sample.session "r1")
      as (_ & _ & _ & Hfail).
    + reflexivity.
    + discriminate.
    + apply Hfail. left. exists Sample.forbidden. split; reflexivity.
  - destruct (refresh_stores_or_clears Sample.clock
                (Sample.answer (Throw (ErrorObject "Failed to fetch")))
                Sample.session "r1")
      as (_ & _ & _ & Hfail).
    + reflexivity.
    + discriminate.
    + apply Hfail. right. eexists. reflexivity.
Defined.

Lemma unauthorized_refreshes_once_and_fails_witness :
  run (ApiClient.request (T:=unit) (Payload0:=Sample.no_detail) Sample.clock
         (Sample.answer (Return Sample.granted))
         (Sample.answer (Return Sample.unauthorized))
         "/api/v1/admin/users" no_options) Sample.session
  = Return (mkApiResponse false None (Some "Authentication required"))
  ∧ fetched
      (exec (ApiClient.request (T:=unit) (Payload0:=Sample.no_detail)
               Sample.clock
               (Sample.answer (Return Sample.granted))
               (Sample.answer (Return Sample.unauthorized))
               "/api/v1/admin/users" no_options) Sample.session)
    = [outbound_request Sample.clock "/api/v1/admin/users" no_options
         Sample.session;
       ApiClient.refresh_request "r1"].
Proof.
  destruct (unauthorized_refreshes_once_and_fails (T:=unit)
              (Payload0:=Sample.no_detail) Sample.clock
              (Sample.answer (Return Sample.granted))
              (Sample.answer (Return Sample.unauthorized))
              "/api/v1/admin/users" no_options Sample.session
              (outbound_request Sample.clock "/api/v1/admin/users"
                 no_options Sample.session)
              Sample.unauthorized)
    as (Henv & _ & Hlog & _).
  - vm_compute. reflexivity.
  - reflexivity.
  - reflexivity.
  - split; [exact Henv|]. rewrite Hlog. reflexivity.
Defined.

Lemma unauthorized_without_refresh_token_witness :
  fetched
    (exec (ApiClient.request (T:=unit) (Payload0:=Sample.no_detail)
             Sample.clock
             (Sample.answer (Return Sample.granted))
             (Sample.answer (Return Sample.unauthorized))
             "/api/v1/admin/users" no_options) Sample.no_refresh)
  = [outbound_request Sample.clock "/api/v1/admin/users" no_options
       Sample.no_refresh]
  ∧ cleared
      (exec (ApiClient.request (T:=unit) (Payload0:=Sample.no_detail)
               Sample.clock
               (Sample.answer (Return Sample.granted))
               (Sample.answer (Return Sample.unauthorized))
               "/api/v1/admin/users" no_options) Sample.no_refresh)
  ∧ location_href
      (exec (ApiClient.request (T:=unit) (Payload0:=Sample.no_detail)
               Sample.clock
               (Sample.answer (Return Sample.granted))
               (Sample.answer (Return Sample.unauthorized))
               "/api/v1/admin/users" no_options) Sample.no_refresh)
    = "/login".
Proof.
  apply (unauthorized_without_refresh_token (T:=unit)
           (Payload0:=Sample.no_detail) Sample.clock
           (Sample.answer (Return Sample.granted))
           (Sample.answer (Return Sample.unauthorized))
           "/api/v1/admin/users" no_options Sample.no_refresh
           (outbound_request Sample.clock "/api/v1/admin/users"
              no_options Sample.no_refresh)
           Sample.unauthorized).
  - vm_compute. reflexivity.
  - reflexivity.
  - reflexivity.
  - left. reflexivity.
Defined.

Lemma request_headers_witness :
  (∃ req,
     primary_request Sample.session
       (exec (ApiClient.request (T:=unit) (Payload0:=Sample.no_detail)
                Sample.clock
                (Sample.answer (Return Sample.granted))
                (Sample.answer (Throw (ErrorObject "Failed to fetch")))
                "/api/v1/admin/auth/me" no_options) Sample.session)
     = Some req
     ∧ req_headers req !! "Authorization" = Some "Bearer a1")
  ∧ (∃ req,
       primary_request Sample.stale
         (exec (ApiClient.request (T:=unit) (Payload0:=Sample.no_detail)
                  Sample.clock
                  (Sample.answer (Return Sample.granted))
                  (Sample.answer (Throw (ErrorObject "Failed to fetch")))
                  "/api/v1/admin/auth/me" no_options) Sample.stale)
       = Some req
       ∧ req_headers req !! "Authorization" = None).
Proof.
  split.
  - destruct (request_headers (T:=unit) (Payload0:=Sample.no_detail)
                Sample.clock
                (Sample.answer (Return Sample.granted))
                (Sample.answer (Throw (ErrorObject "Failed to fetch")))
                "/api/v1/admin/auth/me" no_options Sample.session)
      as (req & Hreq & _ & _ & Hbearer & _).
    exists req. split; [exact Hreq|].
    apply (Hbearer "a1").
    + reflexivity.
    + discriminate.
    + vm_compute. reflexivity.
  - destruct (request_headers (T:=unit) (Payload0:=Sample.no_detail)
                Sample.clock
                (Sample.answer (Return Sample.granted))
                (Sample.answer (Throw (ErrorObject "Failed to fetch")))
                "/api/v1/admin/auth/me" no_options Sample.stale)
      as (req & Hreq & _ & _ & _ & Hnone).
    exists req. split; [exact Hreq|].
    destruct Hnone as [_ Hauth].
    + right. right. vm_compute. reflexivity.
    + rewrite Hauth. reflexivity.
Defined.

Lemma login_returns_pair_for_caller_to_store_witness :
  run (ApiClient.login (Payload0:=Sample.no_detail) Sample.clock
         (Sample.answer (Return Sample.granted))
         (Sample.answer (Return Sample.granted)) Sample.credentials)
      Sample.signed_out
  = Return (mkApiResponse true (Some Sample.pair) None)
  ∧ localStorage
      (exec (ApiClient.login (Payload0:=Sample.no_detail) Sample.clock
               (Sample.answer (Return Sample.granted))
               (Sample.answer (Return Sample.granted)) Sample.credentials)
            Sample.signed_out)
    = localStorage Sample.signed_out
  ∧ run TokenManager.getAccessToken
      (exec (TokenManager.setTokens Sample.clock Sample.pair)
         (exec (ApiClient.login (Payload0:=Sample.no_detail) Sample.clock
                  (Sample.answer (Return Sample.granted))
                  (Sample.answer (Return Sample.granted)) Sample.credentials)
               Sample.signed_out))
    = Return (Some "a2").
Proof.
  destruct (login_returns_pair_for_caller_to_store
              (Payload0:=Sample.no_detail) Sample.clock
              (Sample.answer (Return Sample.granted))
              (Sample.answer (Return Sample.granted))
              Sample.credentials Sample.signed_out
              (outbound_request Sample.clock "/api/v1/admin/auth/login"
                 (mkRequestInit (Some "POST") ∅
                    (Some (ApiClient.credentials_json Sample.credentials)))
                 Sample.signed_out)
              Sample.granted Sample.pair)
    as (Henv & Hstore & _ & _ & _ & _ & Htoken & _).
  - vm_compute. reflexivity.
  - reflexivity.
  - reflexivity.
  - reflexivity.
  - split; [exact Henv|]. split; [exact Hstore|exact Htoken].
Defined.

(** ** Logout *)

(** X25.  [logout] posts to the logout endpoint and, whatever the
    outcome of that call, returns normally with the Token Store
    cleared. *)
Lemma logout_clears (clock : Clock) (auth_net : Network AuthResponse)
    {T : Type} `{!Payload T} (net : Network T) w :
  run (ApiClient.logout clock auth_net net) w = Return ()
  ∧ cleared (exec (ApiClient.logout clock auth_net net) w).
Proof.
  destruct (request_returns clock auth_net net
              "/api/v1/auth/logout" (mkRequestInit (Some "POST") ∅ None) w)
    as [envelope Henv].
  unfold run, exec, ApiClient.logout, try_finally, mbind, M_bind in *.
  destruct (ApiClient.request _ _ _ _ _ w) as [o w1]. cbn in Henv. subst o.
  cbn [mret M_ret]. rewrite clearTokens_run. cbn [fst snd].
  split; [done|]. apply (clearTokens_cleared w1).
Qed.

(** * Further properties *)

(** ** The Token Store over time *)



(** X2.  Expiry is monotone in time: a store that [isTokenExpired()]
    reports expired at one reading of the clock is reported expired at
    every later reading. *)
Theorem isTokenExpired_monotone (clock later : Clock) w :
  clock (ticks w) ≤ later (ticks w) →
  run (TokenManager.isTokenExpired clock) w = Return true →
  run (TokenManager.isTokenExpired later) w = Return true.
Proof.
  unfold run. rewrite !isTokenExpired_run.
  destruct (localStorage w !! _) as [[|c s]|]; try done. cbn [fst].
  destruct (parseInt (String c s)) as [expiry|]; [|done]. cbn [number_ge].
  intros Hle [= Hexp]. f_equal. apply Z.leb_le. apply Z.leb_le in Hexp. lia.
Qed.

(** X3.  [setTokens] and [clearTokens] touch the three fields of the
    Token Store and nothing else: every other key of local storage, the
    location and the log of requests are as before. *)
Theorem token_store_touches_only_its_keys (clock : Clock) a w key :
  key ≠ TokenManager.ACCESS_TOKEN_KEY →
  key ≠ TokenManager.REFRESH_TOKEN_KEY →
  key ≠ TokenManager.TOKEN_EXPIRY_KEY →
  let w1 := exec (TokenManager.setTokens clock a) w in
  let w2 := exec TokenManager.clearTokens w in
  localStorage w1 !! key = localStorage w !! key
  ∧ localStorage w2 !! key = localStorage w !! key
  ∧ location_href w1 = location_href w ∧ location_href w2 = location_href w
  ∧ fetched w1 = fetched w ∧ fetched w2 = fetched w.
Proof.
  intros Ha Hr He w1 w2. subst w1 w2. unfold exec.
  rewrite setTokens_run, clearTokens_run. cbn [snd localStorage].
  rewrite !lookup_insert_ne, !lookup_delete_ne by done. done.
Qed.

(** X4.  Nothing of a stored pair survives: [clearTokens] after
    [setTokens] leaves local storage as [clearTokens] alone does, and a
    second [setTokens] leaves it as if the first had not been called
    (but for the clock having been read once more). *)
Theorem stored_pair_is_overwritten (clock : Clock) a b w :
  localStorage (exec TokenManager.clearTokens
                  (exec (TokenManager.setTokens clock a) w))
  = localStorage (exec TokenManager.clearTokens w)
  ∧ localStorage (exec (TokenManager.setTokens clock b)
                    (exec (TokenManager.setTokens clock a) w))
    = localStorage
        (exec (TokenManager.setTokens clock b)
           (mkWorld (localStorage w) (location_href w) (console w)
                    (fetched w) (S (ticks w)))).
Proof.
  unfold exec. rewrite !setTokens_run, !clearTokens_run.
  cbn [snd localStorage ticks]. split.
  - apply map_eq. intros key.
    rewrite !lookup_delete, !lookup_insert.
    repeat case_decide; try done; congruence.
  - apply map_eq. intros key. rewrite !lookup_insert.
    repeat case_decide; try done; congruence.
Qed.

(** X5.  After [clearTokens] the session is gone for every reader:
    [isAuthenticated()] is [false] and [isTokenExpired()] is [true]
    whatever the clock says, and neither reads the clock. *)
Theorem cleared_store_is_unauthenticated (clock : Clock) w :
  let w' := exec TokenManager.clearTokens w in
  TokenManager.isAuthenticated clock w' = (Return false, w')
  ∧ TokenManager.isTokenExpired clock w' = (Return true, w')
  ∧ run TokenManager.getAccessToken w' = Return None
  ∧ run TokenManager.getRefreshToken w' = Return None.
Proof.
  intros w'. destruct (clearTokens_cleared w) as (Ha & Hr & He).
  fold w' in Ha, Hr, He.
  rewrite isAuthenticated_run, isTokenExpired_run, Ha, He.
  unfold run. by rewrite getAccessToken_run, getRefreshToken_run, Ha, Hr.
Qed.

(** ** More on the refresh protocol and the gateway *)

Section GatewayOverTime.
Variable clock : Clock.
Variable auth_net : Network AuthResponse.

(** X6.  An OK answer of the refresh endpoint whose body cannot be
    parsed is a failed refresh: the failure is logged, the Token Store
    is cleared and the browser is sent to the login route. *)
Theorem refresh_with_unreadable_body_logs_out w refreshToken r e :
  localStorage w !! TokenManager.REFRESH_TOKEN_KEY = Some refreshToken →
  refreshToken ≠ EmptyString →
  auth_net (fetched w) (ApiClient.refresh_request refreshToken) = Return r →
  ok r = true →
  json r = Throw e →
  let w' := exec (ApiClient.handleAuthError clock auth_net) w in
  run (ApiClient.handleAuthError clock auth_net) w = Return ()
  ∧ cleared w'
  ∧ location_href w' = "/login"
  ∧ console w' = console w ++ [("Token refresh failed:", e)]
  ∧ fetched w' = fetched w ++ [ApiClient.refresh_request refreshToken].
Proof.
  intros Hrt Hne Hnet Hok Hjson w'. subst w'. unfold run, exec.
  rewrite handleAuthError_run, Hrt.
  destruct refreshToken as [|c t]; [done|]. cbv zeta.
  rewrite Hnet, Hok, Hjson. cbn [fst snd].
  match goal with
  | |- _ ∧ cleared (forced_logout ?w1) ∧ _ =>
      destruct (forced_logout_spec w1) as (Hc & Hh & Hf & Hcon & _)
  end.
  by rewrite Hh, Hf, Hcon.
Qed.

Section Generic.
Context {T : Type} `{!Payload T}.
Variable net : Network T.

(** X7.  Unless the response has status 401, [request] leaves the
    session alone: local storage and the location are as before, and the
    call has sent its one request and nothing else. *)
Theorem request_leaves_session_alone endpoint options w :
  (∀ r, net (fetched w) (outbound_request clock endpoint options w)
        = Return r → status r ≠ 401) →
  let w' := exec (ApiClient.request clock auth_net net endpoint options) w in
  localStorage w' = localStorage w
  ∧ location_href w' = location_href w
  ∧ fetched w' = fetched w ++ [outbound_request clock endpoint options w].
Proof.
  intros Hnot w'. subst w'.
  pose proof (request_fetched clock auth_net net endpoint options w) as Hlog.
  cbv zeta in Hlog.
  unfold exec in *. rewrite request_run in *. cbv zeta in *.
  fold (outbound_request clock endpoint options w) in *.
  destruct (header_world_same clock w) as (Hls & Hhref & _).
  destruct (net (fetched w) _) as [r|e] eqn:Hnet.
  - specialize (Hnot r eq_refl).
    destruct (status r =? 401) eqn:H401; [lia|].
    destruct (json r) as [d|e]; [|done].
    destruct (ok r); [done|]. by destruct (detail d).
  - done.
Qed.

(** X8.  A response outside 200-299 (and not 401) with a readable body
    fails with the server's [detail] when the body has one, and with
    the status line ["HTTP <status>: <statusText>"] when it has none. *)
Theorem request_reports_server_detail endpoint options w r d m :
  net (fetched w) (outbound_request clock endpoint options w) = Return r →
  status r ≠ 401 →
  ok r = false →
  json r = Return d →
  detail d = Return m →
  run (ApiClient.request clock auth_net net endpoint options) w
  = Return (mkApiResponse false None
              (Some match m with
                    | Some text => text
                    | None => "HTTP " +:+ pretty (status r) +:+ ": "
                              +:+ statusText r
                    end)).
Proof.
  intros Hnet H401 Hok Hjson Hdetail. unfold run.
  rewrite request_run. cbv zeta.
  fold (outbound_request clock endpoint options w).
  rewrite Hnet, Hjson, Hok, Hdetail.
  destruct (status r =? 401) eqn:Heq; [lia|]. by destruct m.
Qed.

(** X9.  [request] writes to the console exactly when it fails: a
    success leaves the console as it was; a failure appends the line
    of the failed request, carrying the error whose message the
    envelope reports, after at most one line of a failed refresh. *)
Theorem request_logs_exactly_its_failures endpoint options w :
  let w' := exec (ApiClient.request clock auth_net net endpoint options) w in
  ∃ envelope,
    run (ApiClient.request clock auth_net net endpoint options) w
    = Return envelope
    ∧ if success envelope then console w' = console w
      else ∃ refresh_lines error,
          console w' = console w ++ refresh_lines
                       ++ [("API Request failed: " +:+ endpoint, error)]
          ∧ message envelope = Some (error_message error)
          ∧ (length refresh_lines ≤ 1)%nat.
Proof.
  intros w'. subst w'. unfold run.
  change (exec (ApiClient.request clock auth_net net endpoint options) w)
    with (snd (ApiClient.request clock auth_net net endpoint options w)).
  rewrite request_run. cbv zeta.
  fold (outbound_request clock endpoint options w).
  set (req := outbound_request clock endpoint options w).
  set (w1 := exec (fetch net req) (header_world clock w)).
  assert (Hw1 : console w1 = console w).
  { subst w1. unfold exec, fetch. cbn. apply header_world_same. }
  clearbody w1.
  assert (Hfail : ∀ e,
            ∃ refresh_lines error,
              console (exec (console_error
                               ("API Request failed: " +:+ endpoint) e) w1)
              = console w ++ refresh_lines
                ++ [("API Request failed: " +:+ endpoint, error)]
              ∧ message (failed (T:=T) e) = Some (error_message error)
              ∧ (length refresh_lines ≤ 1)%nat).
  { intros e. exists [], e. unfold exec, console_error. cbn. rewrite Hw1.
    split; [done|]. split; [done|lia]. }
  destruct (net (fetched w) req) as [r|e].
  - destruct (status r =? 401).
    + eexists. split; [done|]. cbn [success failed snd].
      assert (Hrefresh : ∃ lines,
                console (exec (ApiClient.handleAuthError clock auth_net) w1)
                = console w ++ lines ∧ (length lines ≤ 1)%nat).
      { unfold exec at 1. rewrite handleAuthError_run.
        assert (Hlogout : ∀ w2, console (forced_logout w2) = console w2).
        { intros w2. apply forced_logout_spec. }
        destruct (localStorage w1 !! _) as [[|c t]|];
          try (exists []; cbn [snd]; rewrite Hlogout, Hw1, app_nil_r;
               split; [done|cbn; lia]).
        cbv zeta.
        destruct (auth_net (fetched w1) _) as [r'|e'].
        - destruct (ok r').
          + destruct (json r') as [a|e'].
            * exists []. rewrite setTokens_run.
              unfold exec, fetch. cbn. rewrite Hw1, app_nil_r.
              split; [done|lia].
            * exists [("Token refresh failed:", e')]. cbn [snd].
              rewrite Hlogout. unfold exec, console_error, fetch. cbn.
              rewrite Hw1. split; [done|lia].
          + exists []. cbn [snd]. rewrite Hlogout.
            unfold exec, console_error, fetch. cbn.
            rewrite Hw1, app_nil_r. split; [done|lia].
        - exists [("Token refresh failed:", e')]. cbn [snd].
          rewrite Hlogout. unfold exec, console_error, fetch. cbn.
          rewrite Hw1. split; [done|lia]. }
      destruct Hrefresh as (lines & Hlines & Hlen).
      exists lines, (ErrorObject "Authentication required").
      unfold exec at 1, console_error.
      cbn [snd console message failed error_message].
      rewrite Hlines, <- app_assoc. split; [done|]. split; [done|lia].
    + destruct (json r) as [d|e].
      * destruct (ok r).
        -- eexists. split; [done|]. done.
        -- destruct (detail d) as [m|e]; eexists; (split; [done|]);
             cbn [success failed snd]; by apply Hfail.
      * eexists. split; [done|]. cbn [success failed snd]. by apply Hfail.
  - eexists. split; [done|]. cbn [success failed snd]. by apply Hfail.
Qed.

End Generic.
End GatewayOverTime.

(** ** From one call to the next *)

Section NextCall.
Variable clock : Clock.
Variable auth_net : Network AuthResponse.



Lemma outbound_headers_cleared options w :
  cleared w →
  outbound_headers clock options w
  = init_headers options ∪ {[ "Content-Type" := "application/json" ]}.
Proof. intros (Ha & _). unfold outbound_headers. by rewrite Ha. Qed.

Section Generic.
Context {T : Type} `{!Payload T}.
Variable net : Network T.

(** The world a call answered with 401 leaves behind. *)
Lemma request_unauthorized_world endpoint options w r :
  net (fetched w) (outbound_request clock endpoint options w) = Return r →
  status r = 401 →
  ∃ w0,
    localStorage w0 = localStorage w
    ∧ fetched w0 = fetched w ++ [outbound_request clock endpoint options w]
    ∧ let w1 := exec (ApiClient.handleAuthError clock auth_net) w0 in
      let w' :=
        exec (ApiClient.request clock auth_net net endpoint options) w in
      localStorage w' = localStorage w1
      ∧ location_href w' = location_href w1
      ∧ ticks w' = ticks w1.
Proof.
  intros Hnet H401.
  exists (exec (fetch net (outbound_request clock endpoint options w))
               (header_world clock w)).
  destruct (header_world_same clock w) as (Hls & _ & Hlog & _).
  split; [by unfold exec, fetch; cbn|].
  split; [by unfold exec, fetch; cbn; rewrite Hlog|].
  cbv zeta.
  change (exec (ApiClient.request clock auth_net net endpoint options) w)
    with (snd (ApiClient.request clock auth_net net endpoint options w)).
  by rewrite (request_unauthorized clock auth_net net _ _ _ _ Hnet H401).
Qed.


(** X11.  A failed recovery ends the session for the next call: after a
    call answered with 401 that the refresh protocol could not recover
    (no refresh token, or a refresh POST that did not return a readable
    OK answer), the Token Store is cleared, the browser is at the login
    route, [isAuthenticated()] is [false] and the next call goes out
    with the caller's headers and no bearer token. *)
Theorem failed_recovery_ends_session
    endpoint options w r (later : Clock)
    (net' : Network T) endpoint' options' :
  let req := outbound_request clock endpoint options w in
  let w1 := exec (ApiClient.request clock auth_net net endpoint options) w in
  net (fetched w) req = Return r →
  status r = 401 →
  (∀ refreshToken r' pair,
     localStorage w !! TokenManager.REFRESH_TOKEN_KEY = Some refreshToken →
     refreshToken ≠ EmptyString →
     auth_net (fetched w ++ [req]) (ApiClient.refresh_request refreshToken)
     = Return r' →
     ok r' = true →
     json r' ≠ Return pair) →
  cleared w1
  ∧ location_href w1 = "/login"
  ∧ run (TokenManager.isAuthenticated later) w1 = Return false
  ∧ ∃ req',
      primary_request w1
        (exec (ApiClient.request clock auth_net net' endpoint' options') w1)
      = Some req'
      ∧ req_headers req'
        = init_headers options' ∪ {[ "Content-Type" := "application/json" ]}.
Proof.
  intros req w1 Hnet H401 Hfail.
  destruct (request_unauthorized_world endpoint options w r Hnet H401)
    as (w0 & Hls0 & Hlog0 & Hls & Hhref & _).
  fold req in Hlog0. fold w1 in Hls, Hhref.
  assert (Hout : ∃ w2, exec (ApiClient.handleAuthError clock auth_net) w0
                       = forced_logout w2).
  { unfold exec at 1. rewrite handleAuthError_run, Hls0, Hlog0.
    destruct (localStorage w !! TokenManager.REFRESH_TOKEN_KEY)
      as [[|c t]|] eqn:Hrt; try by eexists.
    cbv zeta.
    destruct (auth_net (fetched w ++ [req]) _) as [r'|e'] eqn:Hauth;
      [|by eexists].
    destruct (ok r') eqn:Hok; [|by eexists].
    destruct (json r') as [pair|e'] eqn:Hjson; [|by eexists].
    by destruct (Hfail (String c t) r' pair eq_refl ltac:(done) Hauth Hok). }
  destruct Hout as [w2 Hout]. rewrite Hout in Hls, Hhref.
  destruct (forced_logout_spec w2) as (Hc & Hh & _).
  assert (Hcleared : cleared w1).
  { unfold cleared. rewrite Hls. apply Hc. }
  split; [done|]. split; [by rewrite Hhref|]. split.
  - unfold run. rewrite isAuthenticated_run. by rewrite (proj1 Hcleared).
  - exists (outbound_request clock endpoint' options' w1).
    split; [apply request_primary|].
    by apply outbound_headers_cleared.
Qed.

End Generic.
End NextCall.

(** ** Strings *)

Lemma string_append_cons c (s t : string) :
  String c s +:+ t = String c (s +:+ t).
Proof. reflexivity. Qed.

Lemma string_append_nil_l (t : string) : EmptyString +:+ t = t.
Proof. reflexivity. Qed.

Lemma string_append_assoc (s1 s2 s3 : string) :
  (s1 +:+ s2) +:+ s3 = s1 +:+ (s2 +:+ s3).
Proof.
  induction s1 as [|c s1 IH]; [done|].
  rewrite !string_append_cons. by f_equal.
Qed.

Lemma string_append_nil_r (s : string) : s +:+ EmptyString = s.
Proof.
  induction s as [|c s IH]; [done|]. rewrite string_append_cons. by f_equal.
Qed.

Lemma string_length_append (s1 s2 : string) :
  String.length (s1 +:+ s2) = (String.length s1 + String.length s2)%nat.
Proof.
  induction s1 as [|c s1 IH]; [done|].
  rewrite string_append_cons. cbn [String.length]. by rewrite IH.
Qed.

(** [value || fallback] is not empty when the fallback is not. *)
Lemma or_else_nonempty value fallback :
  fallback ≠ EmptyString → or_else value fallback ≠ EmptyString.
Proof. intros Hf. unfold or_else. by destruct value as [[|c s]|]. Qed.

(** ** Request bodies and addresses determine what they were built from *)

Lemma unquote_quote_char c tail :
  unquote_chars (quote_char c +:+ tail)
  = match unquote_chars tail with
    | Some (text, after) => Some (String c text, after)
    | None => None
    end.
Proof. destruct c as [[] [] [] [] [] [] [] []]; reflexivity. Qed.

Lemma unquote_quote_chars s after :
  unquote_chars (quote_chars s +:+ String double_quote after)
  = Some (s, after).
Proof.
  induction s as [|c s IH]; [done|].
  cbn [quote_chars]. rewrite string_append_assoc.
  by rewrite unquote_quote_char, IH.
Qed.

(** A quoted string followed by anything can be read back. *)
Lemma JSON_stringify_string_append_inj s1 s2 after1 after2 :
  JSON_stringify_string s1 +:+ after1 = JSON_stringify_string s2 +:+ after2 →
  s1 = s2 ∧ after1 = after2.
Proof.
  unfold JSON_stringify_string. rewrite !string_append_cons. intros [= Heq].
  rewrite !string_append_assoc, !string_append_cons, !string_append_nil_l
    in Heq.
  apply (f_equal unquote_chars) in Heq.
  rewrite !unquote_quote_chars in Heq. by injection Heq.
Qed.

(** X12.  The refresh POST carries the refresh token losslessly: two
    refresh tokens that differ in any character give different request
    bodies, whatever quotes, backslashes or control characters they
    contain. *)
Theorem refresh_request_determines_token token1 token2 :
  req_body (ApiClient.refresh_request token1)
  = req_body (ApiClient.refresh_request token2) →
  token1 = token2.
Proof.
  unfold ApiClient.refresh_request. cbn [req_body]. intros Heq.
  apply (inj Some) in Heq.
  do 3 apply (inj (String.append _)) in Heq.
  by apply JSON_stringify_string_append_inj in Heq as [-> _].
Qed.

(** X13.  The login body determines the credentials: two pairs of
    email and password with the same serialisation are the same pair, so
    no character of an email can pass for part of the password. *)
Theorem credentials_json_determines_credentials c1 c2 :
  ApiClient.credentials_json c1 = ApiClient.credentials_json c2 →
  c1 = c2.
Proof.
  unfold ApiClient.credentials_json. intros Heq.
  do 3 apply (inj (String.append _)) in Heq.
  apply JSON_stringify_string_append_inj in Heq as [Hemail Heq].
  do 3 apply (inj (String.append _)) in Heq.
  apply JSON_stringify_string_append_inj in Heq as [Hpassword _].
  destruct c1, c2. cbn in *. by subst.
Qed.


Section Resources.
Variable clock : Clock.
Variable auth_net : Network AuthResponse.
Context {T : Type} `{!Payload T}.
Variable net : Network T.


End Resources.

(** ** The prompts management component *)

Section Prompts.
Variable clock : Clock.
Variable auth_net : Network AuthResponse.


(** X16.  Creating a prompt never posts an empty category: the form
    data goes out as the JSON object of its content, its category and
    its flag, with ["facebook_ad"] in place of an empty category. *)
Theorem createPrompt_posts_a_category
    {T : Type} `{!Payload T} (net : Network T) promptData w :
  ∃ req sent,
    primary_request w
      (exec (PromptsManagement.createPrompt clock auth_net net promptData) w)
    = Some req
    ∧ req_method req = Some "POST"
    ∧ req_url req = ApiClient.baseURL +:+ "/api/v1/admin/prompt-templates"
    ∧ req_body req
      = Some (JSON_stringify
                (JObj [("content",
                        JStr (PromptsManagement.content promptData));
                       ("category", JStr sent);
                       ("is_active",
                        JBool (PromptsManagement.isActive promptData))]))
    ∧ sent ≠ EmptyString
    ∧ (PromptsManagement.category promptData ≠ EmptyString →
       sent = PromptsManagement.category promptData)
    ∧ (PromptsManagement.category promptData = EmptyString →
       sent = "facebook_ad").
Proof.
  set (sent := or_else (Some (PromptsManagement.category promptData))
                       "facebook_ad").
  set (body := JObj [("content", JStr (PromptsManagement.content promptData));
                     ("category", JStr sent);
                     ("is_active",
                      JBool (PromptsManagement.isActive promptData))]).
  assert (Hworld :
    exec (PromptsManagement.createPrompt clock auth_net net promptData) w
    = exec (ApiClient.createPromptTemplate clock auth_net net body) w).
  { unfold exec, PromptsManagement.createPrompt, mbind, M_bind.
    fold sent. fold body.
    destruct (request_returns clock auth_net net
                "/api/v1/admin/prompt-templates"
                (mkRequestInit (Some "POST") ∅ (Some (JSON_stringify body))) w)
      as [envelope Henv].
    unfold run in Henv. unfold ApiClient.createPromptTemplate.
    destruct (ApiClient.request _ _ _ _ _ w) as [o w1]. cbn in Henv.
    subst o. by destruct (success envelope). }
  rewrite Hworld. unfold ApiClient.createPromptTemplate.
  rewrite request_primary. eexists _, sent. split; [done|].
  repeat split.
  - subst sent. by apply or_else_nonempty.
  - subst sent. unfold or_else.
    by destruct (PromptsManagement.category promptData).
  - subst sent. by intros ->.
Qed.

End Prompts.

(** ** Category labels *)

Lemma replace_underscores_length s :
  String.length (replace_underscores s) = String.length s.
Proof. induction s as [|c s IH]; [done|]. cbn. by rewrite IH. Qed.

Lemma capitalize_words_length after_word s :
  String.length (capitalize_words after_word s) = String.length s.
Proof.
  revert after_word. induction s as [|c s IH]; [done|]. intros b. cbn.
  by rewrite IH.
Qed.

Lemma upper_word_char_not_underscore c :
  is_word_char c = true → (N_of_ascii c =? 95)%N = false →
  Ascii.eqb "_" (upper_word_char c) = false.
Proof. destruct c as [[] [] [] [] [] [] [] []]; done. Qed.

Lemma capitalize_words_no_underscore after_word s :
  contains_char "_" s = false →
  contains_char "_" (capitalize_words after_word s) = false.
Proof.
  revert after_word. induction s as [|c s IH]; [done|]. intros b.
  cbn [contains_char capitalize_words].
  intros [Hc Hs]%orb_false_elim. rewrite (IH _ Hs), orb_false_r.
  destruct (is_word_char c && negb b) eqn:Hw; [|done].
  apply andb_prop in Hw as [Hw _].
  apply upper_word_char_not_underscore; [done|].
  destruct c as [[] [] [] [] [] [] [] []]; done.
Qed.

Lemma replace_underscores_no_underscore s :
  contains_char "_" (replace_underscores s) = false.
Proof.
  induction s as [|c s IH]; [done|].
  cbn [contains_char replace_underscores]. rewrite IH, orb_false_r.
  destruct c as [[] [] [] [] [] [] [] []]; done.
Qed.

(** X17.  [getCategoryLabel] never returns the empty string, whatever
    the list of categories and the value. *)
Theorem getCategoryLabel_never_empty categories value :
  PromptsManagement.getCategoryLabel categories value ≠ EmptyString.
Proof.
  unfold PromptsManagement.getCategoryLabel.
  destruct value as [|c s]; [done|]. cbn [truthy negb orb].
  destruct (String.eqb _ _); [done|].
  assert (Hfallback :
    capitalize_words false (replace_underscores (String c s)) ≠ EmptyString).
  { intros Heq. apply (f_equal String.length) in Heq.
    by rewrite capitalize_words_length, replace_underscores_length in Heq. }
  destruct (find _ categories) as [cat|]; [|done].
  by apply or_else_nonempty.
Qed.

(** X18.  A value that is empty or all white space is labelled
    ["Uncategorized"] even when it is listed; any other listed value
    whose first entry has a non-empty label gets that label. *)
Theorem getCategoryLabel_listed categories value :
  (trim value = EmptyString →
   PromptsManagement.getCategoryLabel categories value = "Uncategorized")
  ∧ (∀ cat,
       trim value ≠ EmptyString →
       find (λ cat, String.eqb (PromptsManagement.value cat) value) categories
       = Some cat →
       PromptsManagement.label cat ≠ EmptyString →
       PromptsManagement.getCategoryLabel categories value
       = PromptsManagement.label cat).
Proof.
  unfold PromptsManagement.getCategoryLabel. split.
  - intros ->. by rewrite orb_true_r.
  - intros cat Hblank Hfind Hlabel.
    destruct value as [|c s]; [done|]. cbn [truthy negb orb].
    apply String.eqb_neq in Hblank. rewrite Hblank, Hfind.
    unfold or_else. by destruct (PromptsManagement.label cat).
Qed.

(** X19.  A value that is not listed (or whose entry has an empty
    label) is shown as itself in title case: the label has the length
    of the value and contains no underscore. *)
Theorem getCategoryLabel_fallback categories value :
  trim value ≠ EmptyString →
  match find (λ cat, String.eqb (PromptsManagement.value cat) value)
             categories with
  | Some cat => PromptsManagement.label cat = EmptyString
  | None => True
  end →
  let shown := PromptsManagement.getCategoryLabel categories value in
  shown = capitalize_words false (replace_underscores value)
  ∧ String.length shown = String.length value
  ∧ contains_char "_" shown = false.
Proof.
  intros Hblank Hfind shown.
  assert (Hshown :
    shown = capitalize_words false (replace_underscores value)).
  { subst shown. unfold PromptsManagement.getCategoryLabel.
    destruct value as [|c s]; [done|]. cbn [truthy negb orb].
    apply String.eqb_neq in Hblank. rewrite Hblank.
    destruct (find _ categories) as [cat|]; [|done].
    by rewrite Hfind. }
  split; [done|]. rewrite Hshown. split.
  - by rewrite capitalize_words_length, replace_underscores_length.
  - apply capitalize_words_no_underscore, replace_underscores_no_underscore.
Qed.

(** ** Inserting a template variable *)

Lemma substring_prefix (s t : string) :
  String.substring 0 (String.length s) (s +:+ t) = s.
Proof.
  induction s as [|c s IH]; [by destruct t|].
  rewrite string_append_cons. cbn [String.length String.substring].
  by rewrite IH.
Qed.

Lemma substring_skip (s t : string) n m :
  String.substring (String.length s + n) m (s +:+ t) = String.substring n m t.
Proof.
  induction s as [|c s IH]; [done|].
  rewrite string_append_cons. cbn [String.length Nat.add String.substring].
  apply IH.
Qed.

Lemma substring_all (s : string) :
  String.substring 0 (String.length s) s = s.
Proof.
  induction s as [|c s IH]; [done|]. cbn [String.length String.substring].
  by rewrite IH.
Qed.

Lemma substring_length (s : string) n m :
  (n + m ≤ String.length s)%nat →
  String.length (String.substring n m s) = m.
Proof.
  revert n m. induction s as [|c s IH]; intros n m; cbn [String.length].
  - intros Hle. assert (n = 0%nat ∧ m = 0%nat) as [-> ->] by lia. done.
  - destruct n as [|n].
    + destruct m as [|m]; [done|]. intros Hle.
      cbn [String.substring String.length]. rewrite IH; [done|lia].
    + intros Hle. cbn [String.substring]. apply IH. lia.
Qed.

Lemma js_substring_range (s : string) a b :
  (a ≤ b)%nat → (b ≤ String.length s)%nat →
  js_substring s a (Some b) = String.substring a (b - a) s.
Proof.
  intros Hab Hb. unfold js_substring. cbn [default from_option id].
  rewrite (Nat.min_l a), (Nat.min_l b), (Nat.min_l a b), (Nat.max_r a b)
    by lia.
  done.
Qed.

Lemma js_substring_from (s : string) a :
  (a ≤ String.length s)%nat →
  js_substring s a None = String.substring a (String.length s - a) s.
Proof.
  intros Ha. unfold js_substring. cbn [default from_option id].
  rewrite (Nat.min_l a), Nat.min_id, (Nat.min_l a), (Nat.max_r a) by lia.
  done.
Qed.

(** X20.  With a selection inside the text, inserting a variable
    replaces exactly the selection: the text before the selection and
    the text after it are kept, the variable stands between them, and
    the cursor is placed right after the variable, inside the new
    text. *)
Theorem handleVariableInsert_replaces_selection
    currentContent variable startPos endPos :
  (startPos ≤ endPos)%nat →
  (endPos ≤ String.length currentContent)%nat →
  let result :=
    PromptsManagement.handleVariableInsert
      (Some (PromptsManagement.mkTextarea startPos endPos))
      currentContent variable in
  let newContent := fst result in
  let cursor := (startPos + String.length variable)%nat in
  snd result = Some cursor
  ∧ js_substring newContent 0 (Some startPos)
    = js_substring currentContent 0 (Some startPos)
  ∧ js_substring newContent startPos (Some cursor) = variable
  ∧ js_substring newContent cursor None
    = js_substring currentContent endPos None
  ∧ String.length newContent
    = (String.length currentContent - (endPos - startPos)
       + String.length variable)%nat
  ∧ (cursor ≤ String.length newContent)%nat.
Proof.
  intros Hse Hend result newContent cursor.
  subst result newContent cursor.
  cbn [PromptsManagement.handleVariableInsert fst snd
       PromptsManagement.selectionStart PromptsManagement.selectionEnd].
  rewrite (js_substring_range currentContent 0 startPos) by lia.
  rewrite (js_substring_from currentContent endPos) by lia.
  rewrite Nat.sub_0_r.
  set (before := String.substring 0 startPos currentContent).
  set (after := String.substring endPos
                  (String.length currentContent - endPos) currentContent).
  assert (Hbefore : String.length before = startPos)
    by (apply substring_length; lia).
  assert (Hafter : String.length after
                   = (String.length currentContent - endPos)%nat)
    by (apply substring_length; lia).
  assert (Hlen : String.length (before +:+ variable +:+ after)
                 = (startPos + String.length variable
                    + (String.length currentContent - endPos))%nat).
  { rewrite !string_length_append, Hbefore, Hafter. lia. }
  split; [done|]. split; [|split; [|split; [|split]]].
  - rewrite js_substring_range by lia. rewrite Nat.sub_0_r.
    rewrite <- Hbefore at 1. apply substring_prefix.
  - rewrite js_substring_range by lia.
    replace (startPos + String.length variable - startPos)%nat
      with (String.length variable) by lia.
    rewrite <- Hbefore at 1.
    rewrite <- (Nat.add_0_r (String.length before)), substring_skip.
    apply substring_prefix.
  - rewrite js_substring_from by lia. rewrite Hlen.
    replace (startPos + String.length variable
             + (String.length currentContent - endPos)
             - (startPos + String.length variable))%nat
      with (String.length after) by lia.
    rewrite <- Hbefore at 1. rewrite substring_skip.
    rewrite <- (Nat.add_0_r (String.length variable)), substring_skip.
    apply substring_all.
  - rewrite Hlen. lia.
  - rewrite Hlen. lia.
Qed.

(** X21.  A selection that lies past the end of the text is clamped to
    the end: the variable is appended, as it is when there is no text
    area at all. *)
Theorem handleVariableInsert_past_the_end
    currentContent variable startPos endPos :
  (String.length currentContent ≤ startPos)%nat →
  (String.length currentContent ≤ endPos)%nat →
  fst (PromptsManagement.handleVariableInsert
         (Some (PromptsManagement.mkTextarea startPos endPos))
         currentContent variable)
  = currentContent +:+ variable
  ∧ PromptsManagement.handleVariableInsert None currentContent variable
    = (currentContent +:+ variable, None).
Proof.
  intros Hs He. split; [|done].
  cbn [PromptsManagement.handleVariableInsert fst
       PromptsManagement.selectionStart PromptsManagement.selectionEnd].
  assert (Hempty : ∀ n s, String.substring n 0 s = EmptyString).
  { intros n s. revert n. induction s as [|c s IH]; intros [|n]; cbn; auto. }
  assert (Hbefore : js_substring currentContent 0 (Some startPos)
                    = currentContent).
  { unfold js_substring. cbn [default from_option id].
    replace (Nat.min startPos (String.length currentContent))
      with (String.length currentContent) by lia.
    cbn [Nat.min Nat.max]. rewrite Nat.sub_0_r. apply substring_all. }
  assert (Hafter : js_substring currentContent endPos None = EmptyString).
  { unfold js_substring. cbn [default from_option id].
    replace (Nat.min endPos (String.length currentContent))
      with (String.length currentContent) by lia.
    rewrite !Nat.min_id, Nat.max_id, Nat.sub_diag. apply Hempty. }
  by rewrite Hbefore, Hafter, string_append_nil_r.
Qed.

(** ** The login page *)

Lemma is_white_space_lower_char c :
  is_white_space (lower_char c) = is_white_space c.
Proof. destruct c as [[] [] [] [] [] [] [] []]; reflexivity. Qed.

Lemma lower_char_idempotent c : lower_char (lower_char c) = lower_char c.
Proof. destruct c as [[] [] [] [] [] [] [] []]; reflexivity. Qed.

Lemma toLowerCase_idempotent s : toLowerCase (toLowerCase s) = toLowerCase s.
Proof.
  induction s as [|c s IH]; [done|]. cbn.
  by rewrite lower_char_idempotent, IH.
Qed.

Lemma trimStart_toLowerCase s :
  trimStart (toLowerCase s) = toLowerCase (trimStart s).
Proof.
  induction s as [|c s IH]; [done|]. cbn [toLowerCase trimStart].
  rewrite is_white_space_lower_char. by destruct (is_white_space c).
Qed.

Lemma trimEnd_toLowerCase s :
  trimEnd (toLowerCase s) = toLowerCase (trimEnd s).
Proof.
  induction s as [|c s IH]; [done|]. cbn [toLowerCase trimEnd].
  rewrite IH, is_white_space_lower_char.
  destruct (trimEnd s) as [|d r]; cbn [toLowerCase]; [|done].
  by destruct (is_white_space c).
Qed.

Lemma trimEnd_idempotent s : trimEnd (trimEnd s) = trimEnd s.
Proof.
  induction s as [|c s IH]; [done|]. cbn [trimEnd].
  destruct (trimEnd s) as [|d r] eqn:Hs.
  - destruct (is_white_space c) eqn:Hc; [done|]. cbn [trimEnd]. by rewrite Hc.
  - cbn [trimEnd] in *. by rewrite IH.
Qed.

(** What [trimStart] returns does not start with white space. *)
Lemma trimStart_head s :
  match trimStart s with
  | String c _ => is_white_space c = false
  | EmptyString => True
  end.
Proof.
  induction s as [|c s IH]; [done|]. cbn [trimStart].
  by destruct (is_white_space c) eqn:Hc.
Qed.

Lemma trimStart_trimEnd_trimStart s :
  trimStart (trimEnd (trimStart s)) = trimEnd (trimStart s).
Proof.
  pose proof (trimStart_head s) as Hhead.
  destruct (trimStart s) as [|c t]; [done|]. cbn [trimEnd].
  destruct (trimEnd t) as [|d r]; rewrite ?Hhead; cbn [trimStart];
    by rewrite Hhead.
Qed.

Lemma trim_idempotent s : trim (trim s) = trim s.
Proof.
  unfold trim. by rewrite trimStart_trimEnd_trimStart, trimEnd_idempotent.
Qed.

Lemma trim_toLowerCase s : trim (toLowerCase s) = toLowerCase (trim s).
Proof. unfold trim. by rewrite trimStart_toLowerCase, trimEnd_toLowerCase. Qed.

(** X22.  The email that [onSubmit] sends is in normal form: trimming
    it or lowering its case again changes nothing, so submitting an
    already normalised email sends it as it is. *)
Theorem submitted_email_is_normalised email :
  let sent := toLowerCase (trim email) in
  trim sent = sent
  ∧ toLowerCase sent = sent
  ∧ toLowerCase (trim sent) = sent.
Proof.
  cbv zeta.
  assert (Htrim : trim (toLowerCase (trim email)) = toLowerCase (trim email))
    by (by rewrite trim_toLowerCase, trim_idempotent).
  split; [done|]. split; [apply toLowerCase_idempotent|].
  rewrite Htrim. apply toLowerCase_idempotent.
Qed.

(** X23.  [onSubmit] never throws and never leaves the form
    submitting: it hands [login] the normalised email and the password
    as typed, and ends with [isSubmitting] off and an error text that
    is empty exactly when [login] reported success. *)
Theorem onSubmit_settles {T : Type}
    (login : LoginCredentials → Outcome (ApiResponse T)) data st :
  let credentials :=
    mkLoginCredentials (toLowerCase (trim (LoginPage.form_email data)))
                       (LoginPage.form_password data) in
  let st' := snd (LoginPage.onSubmit login data st) in
  fst (LoginPage.onSubmit login data st) = Return ()
  ∧ LoginPage.isSubmitting st' = false
  ∧ LoginPage.showPassword st' = LoginPage.showPassword st
  ∧ LoginPage.loginError st'
    = match login credentials with
      | Return result =>
          if success result then EmptyString
          else or_else (message result) "Login failed. Please try again."
      | Throw _ => "An unexpected error occurred. Please try again."
      end
  ∧ (LoginPage.loginError st' = EmptyString
     ↔ ∃ result, login credentials = Return result ∧ success result = true).
Proof.
  cbv zeta.
  unfold LoginPage.onSubmit, eff_try_finally, eff_try_catch, mbind, Eff_bind,
    eff_await.
  cbn [LoginPage.setIsSubmitting LoginPage.setLoginError fst snd].
  destruct (login _) as [result|e] eqn:Hlogin.
  - destruct (success result) eqn:Hsuccess; cbn.
    + repeat split; try done. by exists result.
    + repeat split; try done.
      * intros Heq. by destruct (or_else_nonempty (message result)
                           "Login failed. Please try again." ltac:(done)).
      * intros (result' & [= <-] & Hs). congruence.
  - cbn. repeat split; try done. by intros (result' & [=] & _).
Qed.

(** ** The campaigns page *)

(** X24.  [loadCampaigns] never throws and never leaves the page
    loading: it ends with [isLoading] off and with the campaigns of a
    successful answer that carries data, or with no campaigns at all
    when the answer is a failure, carries no data, or the call threw. *)
Theorem loadCampaigns_settles {C : Type}
    (getCampaigns : Outcome (CampaignsPage.CampaignsResponse C)) st :
  let st' := snd (CampaignsPage.loadCampaigns getCampaigns st) in
  fst (CampaignsPage.loadCampaigns getCampaigns st) = Return ()
  ∧ CampaignsPage.isLoading st' = false
  ∧ CampaignsPage.campaigns st'
    = match getCampaigns with
      | Return response =>
          if CampaignsPage.resp_success response
          then default [] (CampaignsPage.resp_data response) else []
      | Throw _ => []
      end
  ∧ (CampaignsPage.console_lines st' = CampaignsPage.console_lines st
     ↔ ∃ response cs,
         getCampaigns = Return response
         ∧ CampaignsPage.resp_success response = true
         ∧ CampaignsPage.resp_data response = Some cs).
Proof.
  cbv zeta.
  unfold CampaignsPage.loadCampaigns, eff_try_finally, eff_try_catch, mbind,
    Eff_bind, eff_await.
  cbn [CampaignsPage.setIsLoading fst snd].
  assert (Hgrow : ∀ (l : list CampaignsPage.ConsoleLine) x, l ++ [x] ≠ l).
  { intros l x Heq. apply (f_equal length) in Heq.
    rewrite length_app in Heq. cbn in Heq. lia. }
  destruct getCampaigns as [[[] [cs|] err]|e]; cbn.
  - repeat split; try done. by eexists _, cs.
  - repeat split; try done.
    + intros Heq. by destruct (Hgrow _ _ Heq).
    + by intros (response & cs & [= <-] & _ & [=]).
  - repeat split; try done.
    + intros Heq. by destruct (Hgrow _ _ Heq).
    + by intros (response & cs' & [= <-] & [=] & _).
  - repeat split; try done.
    + intros Heq. by destruct (Hgrow _ _ Heq).
    + by intros (response & cs' & [= <-] & [=] & _).
  - repeat split; try done.
    + intros Heq. by destruct (Hgrow _ _ Heq).
    + by intros (response & cs' & [=] & _).
Qed.

(** ** Instances of the further properties *)


Lemma isTokenExpired_monotone_witness :
  run (TokenManager.isTokenExpired (λ _, 1700000000001)) Sample.stale
  = Return true.
Proof.
  apply (isTokenExpired_monotone Sample.clock (λ _, 1700000000001)
           Sample.stale).
  - vm_compute. discriminate.
  - vm_compute. reflexivity.
Defined.

Lemma token_store_touches_only_its_keys_witness :
  localStorage (exec (TokenManager.setTokens Sample.clock Sample.pair)
                     Sample.session) !! "theme"
  = localStorage Sample.session !! "theme"
  ∧ localStorage (exec TokenManager.clearTokens Sample.session) !! "theme"
    = localStorage Sample.session !! "theme".
Proof.
  destruct (token_store_touches_only_its_keys Sample.clock Sample.pair
              Sample.session "theme") as (Hset & Hclear & _).
  - discriminate.
  - discriminate.
  - discriminate.
  - split; [exact Hset|exact Hclear].
Defined.

Lemma refresh_with_unreadable_body_logs_out_witness :
  cleared
    (exec (ApiClient.handleAuthError Sample.clock
             (Sample.answer
                (Return (mkResponse 200 "OK"
                           (Throw (ErrorObject "Unexpected token"))))))
          Sample.session)
  ∧ location_href
      (exec (ApiClient.handleAuthError Sample.clock
               (Sample.answer
                  (Return (mkResponse 200 "OK"
                             (Throw (ErrorObject "Unexpected token"))))))
            Sample.session)
    = "/login".
Proof.
  destruct (refresh_with_unreadable_body_logs_out Sample.clock
              (Sample.answer
                 (Return (mkResponse 200 "OK"
                            (Throw (ErrorObject "Unexpected token")))))
              Sample.session "r1"
              (mkResponse 200 "OK" (Throw (ErrorObject "Unexpected token")))
              (ErrorObject "Unexpected token"))
    as (_ & Hcleared & Hhref & _).
  - reflexivity.
  - discriminate.
  - reflexivity.
  - reflexivity.
  - reflexivity.
  - split; [exact Hcleared|exact Hhref].
Defined.

Lemma request_leaves_session_alone_witness :
  localStorage
    (exec (ApiClient.request (T:=unit) (Payload0:=Sample.no_detail)
             Sample.clock (Sample.answer (Return Sample.granted))
             (Sample.answer (Return (mkResponse 500 "Internal Server Error"
                                       (Return ()))))
             "/api/v1/admin/users" no_options) Sample.session)
  = localStorage Sample.session.
Proof.
  apply (request_leaves_session_alone (T:=unit) (Payload0:=Sample.no_detail)
           Sample.clock (Sample.answer (Return Sample.granted))
           (Sample.answer (Return (mkResponse 500 "Internal Server Error"
                                     (Return ()))))
           "/api/v1/admin/users" no_options Sample.session).
  intros r Hr. injection Hr as <-. vm_compute. discriminate.
Defined.

Lemma request_reports_server_detail_witness :
  run (ApiClient.request (T:=unit) (Payload0:=Sample.no_detail)
         Sample.clock (Sample.answer (Return Sample.granted))
         (Sample.answer (Return (mkResponse 404 "Not Found" (Return ()))))
         "/api/v1/admin/users/7" no_options) Sample.session
  = Return (mkApiResponse false None (Some "HTTP 404: Not Found")).
Proof.
  apply (request_reports_server_detail (T:=unit) (Payload0:=Sample.no_detail)
           Sample.clock (Sample.answer (Return Sample.granted))
           (Sample.answer (Return (mkResponse 404 "Not Found" (Return ()))))
           "/api/v1/admin/users/7" no_options Sample.session
           (mkResponse 404 "Not Found" (Return ())) () None).
  - reflexivity.
  - vm_compute. discriminate.
  - reflexivity.
  - reflexivity.
  - reflexivity.
Defined.


Lemma failed_recovery_ends_session_witness :
  cleared
    (exec (ApiClient.request (T:=unit) (Payload0:=Sample.no_detail)
             Sample.clock (Sample.answer (Return Sample.granted))
             (Sample.answer (Return Sample.unauthorized))
             "/api/v1/admin/users" no_options) Sample.no_refresh)
  ∧ run (TokenManager.isAuthenticated Sample.clock)
        (exec (ApiClient.request (T:=unit) (Payload0:=Sample.no_detail)
                 Sample.clock (Sample.answer (Return Sample.granted))
                 (Sample.answer (Return Sample.unauthorized))
                 "/api/v1/admin/users" no_options) Sample.no_refresh)
    = Return false.
Proof.
  destruct (failed_recovery_ends_session (T:=unit)
              (Payload0:=Sample.no_detail)
              Sample.clock (Sample.answer (Return Sample.granted))
              (Sample.answer (Return Sample.unauthorized))
              "/api/v1/admin/users" no_options Sample.no_refresh
              Sample.unauthorized Sample.clock
              (Sample.answer (Return Sample.unauthorized))
              "/api/v1/admin/users" no_options)
    as (Hcleared & _ & Hauth & _).
  - reflexivity.
  - reflexivity.
  - intros refreshToken r' pair Hrt. vm_compute in Hrt. discriminate.
  - split; [exact Hcleared|exact Hauth].
Defined.

Lemma refresh_request_determines_token_witness :
  ("r1" : string) = "r1".
Proof.
  apply (refresh_request_determines_token "r1" "r1"). reflexivity.
Defined.

Lemma credentials_json_determines_credentials_witness :
  Sample.credentials = Sample.credentials.
Proof.
  apply (credentials_json_determines_credentials
           Sample.credentials Sample.credentials).
  reflexivity.
Defined.


Lemma createPrompt_posts_a_category_witness :
  ∃ req sent,
    primary_request Sample.session
      (exec (PromptsManagement.createPrompt (T:=unit)
               (Payload0:=Sample.no_detail) Sample.clock
               (Sample.answer (Return Sample.granted))
               (Sample.answer (Return Sample.unauthorized))
               (PromptsManagement.mkPromptFormData
                  "Write an ad for {product_name}." EmptyString true))
            Sample.session)
    = Some req
    ∧ req_body req
      = Some (JSON_stringify
                (JObj [("content", JStr "Write an ad for {product_name}.");
                       ("category", JStr sent);
                       ("is_active", JBool true)]))
    ∧ sent = "facebook_ad".
Proof.
  destruct (createPrompt_posts_a_category (T:=unit)
              (Payload0:=Sample.no_detail) Sample.clock
              (Sample.answer (Return Sample.granted))
              (Sample.answer (Return Sample.unauthorized))
              (PromptsManagement.mkPromptFormData
                 "Write an ad for {product_name}." EmptyString true)
              Sample.session)
    as (req & sent & Hreq & _ & _ & Hbody & _ & _ & Hempty).
  exists req, sent. split; [exact Hreq|]. split; [exact Hbody|].
  apply Hempty. reflexivity.
Defined.

Lemma getCategoryLabel_listed_witness :
  PromptsManagement.getCategoryLabel
    [PromptsManagement.mkCategory "faq" "FAQ"] "   "
  = "Uncategorized"
  ∧ PromptsManagement.getCategoryLabel
      [PromptsManagement.mkCategory "faq" "FAQ"] "faq"
    = "FAQ".
Proof.
  split.
  - apply (proj1 (getCategoryLabel_listed
                    [PromptsManagement.mkCategory "faq" "FAQ"] "   ")).
    reflexivity.
  - apply (proj2 (getCategoryLabel_listed
                    [PromptsManagement.mkCategory "faq" "FAQ"] "faq")
             (PromptsManagement.mkCategory "faq" "FAQ")).
    + discriminate.
    + reflexivity.
    + discriminate.
Defined.

Lemma getCategoryLabel_fallback_witness :
  PromptsManagement.getCategoryLabel
    [PromptsManagement.mkCategory "faq" "FAQ"] "video_script"
  = "Video Script".
Proof.
  destruct (getCategoryLabel_fallback
              [PromptsManagement.mkCategory "faq" "FAQ"] "video_script")
    as (Hshown & _).
  - discriminate.
  - exact I.
  - rewrite Hshown. reflexivity.
Defined.

Lemma handleVariableInsert_replaces_selection_witness :
  fst (PromptsManagement.handleVariableInsert
         (Some (PromptsManagement.mkTextarea 4 9)) "Buy THING now" "{brand}")
  = "Buy {brand} now"
  ∧ js_substring
      (fst (PromptsManagement.handleVariableInsert
              (Some (PromptsManagement.mkTextarea 4 9)) "Buy THING now"
              "{brand}"))
      4 (Some 11%nat)
    = "{brand}".
Proof.
  destruct (handleVariableInsert_replaces_selection
              "Buy THING now" "{brand}" 4 9)
    as (_ & _ & Hinserted & _).
  - vm_compute. lia.
  - vm_compute. lia.
  - split; [reflexivity|exact Hinserted].
Defined.

Lemma handleVariableInsert_past_the_end_witness :
  fst (PromptsManagement.handleVariableInsert
         (Some (PromptsManagement.mkTextarea 40 50)) "Buy now " "{brand}")
  = "Buy now {brand}".
Proof.
  destruct (handleVariableInsert_past_the_end "Buy now " "{brand}" 40 50)
    as (Happended & _).
  - vm_compute. lia.
  - vm_compute. lia.
  - exact Happended.
Defined.

